(** * pet_center_count: eddy-center count maps and their cyclonic/anticyclonic ratio

    Shallow embedding of the notebook
    [notebooks/python_module/10_tracking_diagnostics/pet_center_count.ipynb]
    of py-eddy-tracker.  The notebook is a straight-line Python script over
    mutable objects (numpy masked arrays, a grid dataset, matplotlib axes), so
    it is embedded as a program in a state-and-exception monad over a store of
    objects; every statement of the notebook is one definition below.

    Numbers: Python floats and the integer literals of the script are exact
    rationals ([Q]); no rounding is modelled. *)

From Stdlib Require Import QArith Qround Lqa.
From stdpp Require Import gmap strings list.

Set Default Proof Using "Type".
Local Open Scope Q_scope.

(** ** numpy.ma: masked arrays as values *)

Module ma.

(** Exceptions numpy raises on the paths the notebook can take. *)
Inductive error :=
| BroadcastError   (* ValueError: operands could not be broadcast together *)
| BoolIndexError.  (* IndexError: boolean index did not match indexed array *)

Definition shape := (nat * nat)%type.

Definition ncells (sh : shape) : nat := (sh.1 * sh.2)%nat.

(** A 2-D MaskedArray: its shape, the [_data] buffer and the [_mask] buffer
    (row-major).  The arrays of the notebook carry a full boolean mask and
    a soft mask ([hard_mask=False], numpy's default). *)
Record marray := MArray {
  ma_shape : shape;
  ma_data : list Q;
  ma_mask : list bool
}.

Definition wf (x : marray) : Prop :=
  length (ma_data x) = ncells (ma_shape x) ∧
  length (ma_mask x) = ncells (ma_shape x).

(** [_DomainSafeDivide]: the cells where the quotient is not computed.
    numpy tests [abs(a) * tiny >= abs(b)] with [tiny] the smallest normal
    float, a guard against overflow; on exact rationals this is [b == 0]. *)
Definition domain_safe_divide (a b : Q) : bool := Qeq_bool b 0.

(** Mask of one cell of [x / y]: the masks of both operands and the domain. *)
Definition div_mask (a b : Q) (ma mb : bool) : bool :=
  domain_safe_divide a b || ma || mb.

(** Data of one cell of [x / y]: the quotient, and the dividend's data put
    back where the result is masked. *)
Definition div_data (a b : Q) (ma mb : bool) : Q :=
  if div_mask a b ma mb then a else a / b.

Definition zip_with4 {A B C D E} (f : A → B → C → D → E)
    (la : list A) (lb : list B) (lc : list C) (ld : list D) : list E :=
  zip_with (λ ab cd, f ab.1 ab.2 cd.1 cd.2) (zip la lb) (zip lc ld).

(** [x / y] ([MaskedArray.__truediv__], the domained binary operation
    [true_divide]).  Floating-point errors are silenced by numpy
    ([np.errstate(divide='ignore', invalid='ignore')]): nothing is raised
    for a zero divisor, the cell is masked.  Operands of different shapes
    are rejected (broadcasting of a length-1 axis is not modelled). *)
Definition true_divide (x y : marray) : error + marray :=
  if decide (ma_shape x = ma_shape y) then
    inr {| ma_shape := ma_shape x;
           ma_data := zip_with4 div_data (ma_data x) (ma_data y) (ma_mask x) (ma_mask y);
           ma_mask := zip_with4 div_mask (ma_data x) (ma_data y) (ma_mask x) (ma_mask y) |}
  else inl BroadcastError.

(** [b1 & b2] on boolean ndarrays. *)
Definition logical_and (b1 b2 : shape * list bool) : error + shape * list bool :=
  if decide (b1.1 = b2.1) then inr (b1.1, zip_with andb b1.2 b2.2)
  else inl BroadcastError.

(** [x[idx] = v] with a boolean index array and an unmasked scalar [v]
    ([MaskedArray.__setitem__], soft mask): [_data[idx] = v] and
    [_mask[idx] = False].  The index is read before either buffer is
    written. *)
Definition setitem_bool (x : marray) (idx : shape * list bool) (v : Q) : error + marray :=
  if decide (idx.1 = ma_shape x) then
    inr {| ma_shape := ma_shape x;
           ma_data := zip_with (λ d (b : bool), if b then v else d) (ma_data x) idx.2;
           ma_mask := zip_with (λ m (b : bool), if b then false else m) (ma_mask x) idx.2 |}
  else inl BoolIndexError.

(** [x += y] ([MaskedArray.__iadd__]): first [x._mask += y._mask], then
    [x._data += where(x._mask, 0, y._data)] with the updated mask. *)
Definition iadd (x y : marray) : error + marray :=
  if decide (ma_shape x = ma_shape y) then
    let m := zip_with orb (ma_mask x) (ma_mask y) in
    inr {| ma_shape := ma_shape x;
           ma_data := zip_with Qplus (ma_data x)
                        (zip_with (λ (b : bool) d, if b then 0 else d) m (ma_data y));
           ma_mask := m |}
  else inl BroadcastError.

(** [x.mask = m] with a boolean array [m] (the mask setter, soft mask):
    the values of [m] are copied into the mask buffer of [x].  Only a mask
    of the array's own shape is modelled. *)
Definition set_mask (x : marray) (m : shape * list bool) : error + marray :=
  if decide (m.1 = ma_shape x) then
    inr {| ma_shape := ma_shape x; ma_data := ma_data x; ma_mask := m.2 |}
  else inl BroadcastError.

(** [x * f] with a scalar [f]: the mask is kept, unmasked cells are scaled
    and masked cells keep their data. *)
Definition mul_scalar (x : marray) (f : Q) : marray :=
  {| ma_shape := ma_shape x;
     ma_data := zip_with (λ d (m : bool), if m then d else d * f) (ma_data x) (ma_mask x);
     ma_mask := ma_mask x |}.

End ma.

(** ** Python objects and the interpreter state *)

(** Object identities: positions in the store, in allocation order. *)
Abbreviation loc := nat.

(** Colour normalisation of a mesh: matplotlib's default linear [Normalize]
    or [LogNorm()]. *)
Inductive norm := Linear | LogNorm.

(** The keyword arguments the notebook passes to [display], as a record of
    optional entries (a Python dict used with [**]). *)
Record kwargs := Kwargs {
  kw_cmap : option string;
  kw_vmin : option Q;
  kw_vmax : option Q;
  kw_factor : option Q;
  kw_name : option string;
  kw_norm : option norm
}.

(** One axis of the [bins] tuple: (start, stop, step). *)
Definition axis := (Q * Q * Q)%type.
Definition bins := (axis * axis)%type.

(** Values held by the notebook's variables. *)
Inductive value :=
| VNum (q : Q)
| VRef (l : loc)        (* reference to an object of the store *)
| VMaskView (l : loc)   (* ndarray view of the mask buffer of the masked array at [l] *)
| VBins (b : bins)
| VKwargs (k : kwargs).
Arguments VRef l%_nat.
Arguments VMaskView l%_nat.

(** Modelled from the spec: an eddy track record has a position and a
    polarity tag (the observation classes are not in the source tree). *)
Record eddy := Eddy { lon : Q; lat : Q; cyclonic : bool }.

(** Modelled from the spec: an observation set is an ordered collection of
    records, with the period (t0, t1) the dataset covers; how the library
    derives the period from the records is not described. *)
Record observations := Observations {
  obs_records : list eddy;
  obs_period : Q * Q
}.

(** Modelled from the spec: a grid dataset ([RegularGridDataset]) carries
    the bin edges of both axes and its named variables. *)
Record dataset := Dataset {
  x_bounds : list Q;
  y_bounds : list Q;
  vars : gmap string loc
}.

Record axes := Axes {
  ax_rect : Q * Q * Q * Q;
  ax_title : option string;
  ax_aspect : option string;
  ax_xlim : option (Q * Q);
  ax_ylim : option (Q * Q);
  ax_grid : bool;
  ax_meshes : list loc
}.

(** What [pcolormesh] drew: the values and the colour mapping. *)
Record mesh := Mesh {
  mesh_values : ma.marray;
  mesh_cmap : option string;
  mesh_vmin : option Q;
  mesh_vmax : option Q;
  mesh_norm : norm
}.

Record colorbar := Colorbar {
  cb_mappable : loc;
  cb_cax : loc;
  cb_label : option string
}.
Arguments Colorbar (cb_mappable cb_cax)%_nat cb_label.

Inductive obj :=
| OObs (o : observations)                 (* TrackEddiesObservations *)
| OGrid (g : dataset)                      (* RegularGridDataset *)
| OMasked (x : ma.marray)                 (* numpy.ma.MaskedArray *)
| OBool (sh : ma.shape) (b : list bool)   (* boolean ndarray *)
| OFigure (figsize : Q * Q) (axs : list loc)
| OAxes (a : axes)
| OMesh (m : mesh)
| OColorbar (c : colorbar).

Inductive exn :=
| NameError (x : string)
| KeyError (k : string)
| TypeError
| ZeroDivisionError
| FileNotFoundError (path : string)
| NumpyError (e : ma.error).

(** The interpreter state: the global namespace of the notebook, the store
    of objects, the sample files on disk and the log of files read. *)
Record state := State {
  globals : gmap string value;
  heap : list obj;
  files : gmap string observations;
  loads : list string
}.

Definition set_globals (f : gmap string value → gmap string value) (s : state) : state :=
  {| globals := f (globals s); heap := heap s; files := files s; loads := loads s |}.

Definition set_heap (f : list obj → list obj) (s : state) : state :=
  {| globals := globals s; heap := f (heap s); files := files s; loads := loads s |}.

(** ** The monad of statements: state passing, with uncaught exceptions *)

Inductive result (A : Type) :=
| Ok (a : A) (s : state)
| Raise (e : exn).
Arguments Ok {A} a s.
Arguments Raise {A} e.

Definition M (A : Type) : Type := state → result A.

Definition ret {A} (a : A) : M A := λ s, Ok a s.

Definition bind {A B} (m : M A) (k : A → M B) : M B :=
  λ s, match m s with
       | Ok a s' => k a s'
       | Raise e => Raise e
       end.

Definition raise {A} (e : exn) : M A := λ _, Raise e.

Declare Scope py_scope.
Delimit Scope py_scope with py.
Notation "'let!' x ':=' m 'in' k" := (bind m (λ x, k))
  (at level 10, x name, m at level 100, k at level 200) : py_scope.
Notation "m ';;;' k" := (bind m (λ _, k))
  (at level 100, k at level 200, right associativity) : py_scope.
Local Open Scope py_scope.

Definition of_option {A} (o : option A) (e : exn) : M A :=
  match o with Some a => ret a | None => raise e end.

Definition of_numpy {A} (r : ma.error + A) : M A :=
  match r with inr a => ret a | inl e => raise (NumpyError e) end.

(** *** Variables *)

Definition get_var (x : string) : M value :=
  λ s, of_option (globals s !! x) (NameError x) s.

Definition set_var (x : string) (v : value) : M unit :=
  λ s, Ok tt (set_globals <[x := v]> s).

Definition get_ref (x : string) : M loc :=
  let! v := get_var x in
  match v with VRef l => ret l | _ => raise TypeError end.

(** *** The store *)

Definition alloc (o : obj) : M loc :=
  λ s, Ok (length (heap s)) (set_heap (λ h, h ++ [o]) s).

Definition load (l : loc) : M obj :=
  λ s, of_option (heap s !! l) TypeError s.

Definition store (l : loc) (o : obj) : M unit :=
  λ s, Ok tt (set_heap <[l := o]> s).

Definition load_masked (l : loc) : M ma.marray :=
  let! o := load l in
  match o with OMasked x => ret x | _ => raise TypeError end.

Definition load_grid (l : loc) : M dataset :=
  let! o := load l in
  match o with OGrid g => ret g | _ => raise TypeError end.

Definition load_axes (l : loc) : M axes :=
  let! o := load l in
  match o with OAxes a => ret a | _ => raise TypeError end.

Definition load_obs (l : loc) : M observations :=
  let! o := load l in
  match o with OObs a => ret a | _ => raise TypeError end.

(** Contents of a boolean array value: a boolean ndarray of the store, or a
    view, which reads the mask buffer it aliases as it is now. *)
Definition read_bool (v : value) : M (ma.shape * list bool) :=
  match v with
  | VRef l =>
      let! o := load l in
      match o with OBool sh b => ret (sh, b) | _ => raise TypeError end
  | VMaskView l =>
      let! x := load_masked l in ret (ma.ma_shape x, ma.ma_mask x)
  | _ => raise TypeError
  end.

Definition get_num (x : string) : M Q :=
  let! v := get_var x in
  match v with VNum q => ret q | _ => raise TypeError end.

Definition get_bins (x : string) : M bins :=
  let! v := get_var x in
  match v with VBins b => ret b | _ => raise TypeError end.

Definition get_kwargs (x : string) : M kwargs :=
  let! v := get_var x in
  match v with VKwargs k => ret k | _ => raise TypeError end.

(** Python's [x / y] on numbers. *)
Definition py_div (x y : Q) : M Q :=
  if Qeq_bool y 0 then raise ZeroDivisionError else ret (x / y).

(** ** numpy.ma operations on the objects of the store *)

(** [x / y]: a new masked array. *)
Definition ma_truediv (lx ly : loc) : M loc :=
  let! x := load_masked lx in
  let! y := load_masked ly in
  let! r := of_numpy (ma.true_divide x y) in
  alloc (OMasked r).

(** [x.mask]: a view of the mask buffer, not a copy. *)
Definition ma_get_mask (lx : loc) : M value :=
  let! _x := load_masked lx in
  ret (VMaskView lx).

(** [b1 & b2]: a new boolean array. *)
Definition bool_and (v1 v2 : value) : M loc :=
  let! b1 := read_bool v1 in
  let! b2 := read_bool v2 in
  let! r := of_numpy (ma.logical_and b1 b2) in
  alloc (OBool r.1 r.2).

(** [x[idx] = v]: in place. *)
Definition ma_setitem (lx : loc) (idx : value) (v : Q) : M unit :=
  let! x := load_masked lx in
  let! i := read_bool idx in
  let! r := of_numpy (ma.setitem_bool x i v) in
  store lx (OMasked r).

(** [x.__iadd__(y)]: in place, returns [x] itself. *)
Definition ma_iadd (lx ly : loc) : M loc :=
  let! x := load_masked lx in
  let! y := load_masked ly in
  let! r := of_numpy (ma.iadd x y) in
  store lx (OMasked r) ;;;
  ret lx.

(** [x.mask = m]: in place. *)
Definition ma_set_mask (lx : loc) (m : value) : M unit :=
  let! x := load_masked lx in
  let! b := read_bool m in
  let! r := of_numpy (ma.set_mask x b) in
  store lx (OMasked r).

(** [g.vars[name]] and [g.vars[name] = l] for the dataset held by variable [g]. *)
Definition vars_getitem (g name : string) : M loc :=
  let! lg := get_ref g in
  let! d := load_grid lg in
  of_option (vars d !! name) (KeyError name).

Definition vars_setitem (g name : string) (l : loc) : M unit :=
  let! lg := get_ref g in
  let! d := load_grid lg in
  store lg (OGrid {| x_bounds := x_bounds d; y_bounds := y_bounds d;
                     vars := <[name := l]> (vars d) |}).

(** ** py-eddy-tracker operations the notebook calls *)

(** [py_eddy_tracker_sample.get_path]: sample files are named relative to the
    root of the sample data. *)
Definition get_path (name : string) : string := name.

(** Modelled from the spec: the Loader ([TrackEddiesObservations.load_file],
    not in the source tree) reads a dataset file into a new in-memory
    observation set; a missing file aborts the run. *)
Definition load_file (path : string) : M loc :=
  let! o := (λ s, of_option (files s !! path) (FileNotFoundError path) s) in
  (λ s, Ok tt {| globals := globals s; heap := heap s; files := files s;
                 loads := loads s ++ [path] |}) ;;;
  alloc (OObs o).

(** Modelled from the spec: the period query ([.period], not in the source
    tree) reads the period of the observation set. *)
Definition period (self : loc) : M (Q * Q) :=
  let! o := load_obs self in
  ret (obs_period o).

(** Modelled from the spec: number of cells of a bin axis (start, stop,
    step): the lattice points [start + k * step] below [stop], that is
    (stop - start) / step when the step divides the range. *)
Definition nbins (ax : axis) : nat :=
  let '(start, stop, step) := ax in
  Z.to_nat (Qceiling ((stop - start) / step)).

(** Modelled from the spec: the bin edges of an axis. *)
Definition edges (ax : axis) : list Q :=
  let '(start, stop, step) := ax in
  map (λ k : nat, start + inject_Z (Z.of_nat k) * step) (seq 0 (S (nbins ax))).

Definition in_bin (ax : axis) (k : nat) (x : Q) : bool :=
  let '(start, stop, step) := ax in
  Qle_bool (start + inject_Z (Z.of_nat k) * step) x &&
  negb (Qle_bool (start + inject_Z (Z.of_nat (S k)) * step) x).

(** Modelled from the spec: the 2-D histogram of the eddy centers over the
    longitude/latitude lattice, row-major. *)
Definition histogram2d (recs : list eddy) (b : bins) : list nat :=
  concat (map (λ i, map (λ j,
    length (filter (λ e, in_bin b.1 i (lon e) && in_bin b.2 j (lat e)) recs))
    (seq 0 (nbins b.2))) (seq 0 (nbins b.1))).

Definition shape_of_bins (b : bins) : ma.shape := (nbins b.1, nbins b.2).

Definition count_array (recs : list eddy) (b : bins) : ma.marray :=
  let h := histogram2d recs b in
  {| ma.ma_shape := shape_of_bins b;
     ma.ma_data := map (λ n : nat, inject_Z (Z.of_nat n)) h;
     ma.ma_mask := map (λ n : nat, bool_decide (n = 0%nat)) h |}.

(** Modelled from the spec: the Binner ([grid_count], not in the source
    tree) returns a new grid dataset over the given bins whose variable
    "count" is the masked 2-D grid of eddy-center counts; bins with zero
    observations are masked.  It reads the observation set.  The spec
    describes the count of centers only, the way the notebook calls it
    ([intern=True, center=True]).  The notebook hands it the bins alone and
    hands the normalisation factor to [display]: the grid holds the counts,
    and the factor is applied where the grid is drawn. *)
Definition grid_count (self : loc) (b : bins) (intern center : bool) : M loc :=
  let! o := load_obs self in
  let! lc := alloc (OMasked (count_array (obs_records o) b)) in
  alloc (OGrid {| x_bounds := edges b.1; y_bounds := edges b.2;
                  vars := {["count" := lc]} |}).

Definition add_mesh (a : axes) (lm : loc) : axes :=
  {| ax_rect := ax_rect a; ax_title := ax_title a; ax_aspect := ax_aspect a;
     ax_xlim := ax_xlim a; ax_ylim := ax_ylim a; ax_grid := ax_grid a;
     ax_meshes := ax_meshes a ++ [lm] |}.

(** Modelled from the spec: [display] (not in the source tree) draws the
    variable [name] of the dataset on the axes, its values multiplied by
    [factor] (no scaling when absent), with the colour mapping given by the
    other keyword arguments, and returns the mesh drawn.  The mesh holds
    its own copy of the values. *)
Definition display (self ax : loc) (kw : kwargs) : M loc :=
  let! name := of_option (kw_name kw) TypeError in
  let! g := load_grid self in
  let! lx := of_option (vars g !! name) (KeyError name) in
  let! x := load_masked lx in
  let! a := load_axes ax in
  let! lm := alloc (OMesh {| mesh_values := ma.mul_scalar x (default 1 (kw_factor kw));
                             mesh_cmap := kw_cmap kw;
                             mesh_vmin := kw_vmin kw;
                             mesh_vmax := kw_vmax kw;
                             mesh_norm := default Linear (kw_norm kw) |}) in
  store ax (OAxes (add_mesh a lm)) ;;;
  ret lm.

(** ** matplotlib operations the notebook calls *)

Definition figure (figsize : Q * Q) : M loc := alloc (OFigure figsize []).

Definition new_axes (rect : Q * Q * Q * Q) : axes :=
  {| ax_rect := rect; ax_title := None; ax_aspect := None; ax_xlim := None;
     ax_ylim := None; ax_grid := false; ax_meshes := [] |}.

Definition add_axes (fig : loc) (rect : Q * Q * Q * Q) : M loc :=
  let! o := load fig in
  match o with
  | OFigure sz axs =>
      let! la := alloc (OAxes (new_axes rect)) in
      store fig (OFigure sz (axs ++ [la])) ;;;
      ret la
  | _ => raise TypeError
  end.

Definition update_axes (ax : loc) (f : axes → axes) : M unit :=
  let! a := load_axes ax in
  store ax (OAxes (f a)).

Definition set_title (ax : loc) (t : string) : M unit :=
  update_axes ax (λ a,
    {| ax_rect := ax_rect a; ax_title := Some t; ax_aspect := ax_aspect a;
       ax_xlim := ax_xlim a; ax_ylim := ax_ylim a; ax_grid := ax_grid a;
       ax_meshes := ax_meshes a |}).

Definition set_aspect (ax : loc) (asp : string) : M unit :=
  update_axes ax (λ a,
    {| ax_rect := ax_rect a; ax_title := ax_title a; ax_aspect := Some asp;
       ax_xlim := ax_xlim a; ax_ylim := ax_ylim a; ax_grid := ax_grid a;
       ax_meshes := ax_meshes a |}).

Definition set_xlim (ax : loc) (lo hi : Q) : M unit :=
  update_axes ax (λ a,
    {| ax_rect := ax_rect a; ax_title := ax_title a; ax_aspect := ax_aspect a;
       ax_xlim := Some (lo, hi); ax_ylim := ax_ylim a; ax_grid := ax_grid a;
       ax_meshes := ax_meshes a |}).

Definition set_ylim (ax : loc) (lo hi : Q) : M unit :=
  update_axes ax (λ a,
    {| ax_rect := ax_rect a; ax_title := ax_title a; ax_aspect := ax_aspect a;
       ax_xlim := ax_xlim a; ax_ylim := Some (lo, hi); ax_grid := ax_grid a;
       ax_meshes := ax_meshes a |}).

(** [ax.grid()]: called with no argument, it toggles the gridlines, on
    where they were off and off where they were on. *)
Definition grid (ax : loc) : M unit :=
  update_axes ax (λ a,
    {| ax_rect := ax_rect a; ax_title := ax_title a; ax_aspect := ax_aspect a;
       ax_xlim := ax_xlim a; ax_ylim := ax_ylim a; ax_grid := negb (ax_grid a);
       ax_meshes := ax_meshes a |}).

(** [plt.colorbar(mappable, cax=cax)]. *)
Definition plt_colorbar (mappable cax : loc) : M loc :=
  let! o := load mappable in
  match o with
  | OMesh _ =>
      let! _a := load_axes cax in
      alloc (OColorbar {| cb_mappable := mappable; cb_cax := cax; cb_label := None |})
  | _ => raise TypeError
  end.

Definition set_label (cb : loc) (t : string) : M unit :=
  let! o := load cb in
  match o with
  | OColorbar c =>
      store cb (OColorbar {| cb_mappable := cb_mappable c; cb_cax := cb_cax c;
                             cb_label := Some t |})
  | _ => raise TypeError
  end.

(** ** The notebook *)

Module notebook.

Definition anticyclonic_zarr : string := "eddies_med_adt_allsat_dt2018/Anticyclonic.zarr".
Definition cyclonic_zarr : string := "eddies_med_adt_allsat_dt2018/Cyclonic.zarr".

(** Cell 4: load the two atlases and set the parameters. *)

(** [a = TrackEddiesObservations.load_file(py_eddy_tracker_sample.get_path(...))] *)
Definition load_a : M unit :=
  let! l := load_file (get_path anticyclonic_zarr) in set_var "a" (VRef l).

Definition load_c : M unit :=
  let! l := load_file (get_path cyclonic_zarr) in set_var "c" (VRef l).

(** [t0, t1 = a.period] *)
Definition set_period : M unit :=
  let! a := get_ref "a" in
  let! p := period a in
  set_var "t0" (VNum p.1) ;;;
  set_var "t1" (VNum p.2).

(** [step = 0.125] *)
Definition set_step : M unit := set_var "step" (VNum 0.125).

(** [bins = ((-10, 37, step), (30, 46, step))] *)
Definition set_bins : M unit :=
  let! step := get_num "step" in
  set_var "bins" (VBins ((-10, 37, step), (30, 46, step))).

(** [kwargs_pcolormesh = dict(cmap="terrain_r", vmin=0, vmax=2,
      factor=1 / (step ** 2 * (t1 - t0)), name="count")] *)
Definition set_kwargs : M unit :=
  let! step := get_num "step" in
  let! t1 := get_num "t1" in
  let! t0 := get_num "t0" in
  let! factor := py_div 1 (step ^ 2 * (t1 - t0)) in
  set_var "kwargs_pcolormesh"
    (VKwargs {| kw_cmap := Some "terrain_r"%string; kw_vmin := Some 0; kw_vmax := Some 2;
                kw_factor := Some factor; kw_name := Some "count"%string;
                kw_norm := None |}).

Definition load_atlases : M unit := load_a ;;; load_c.

(** The statements under [# Parameters]. *)
Definition parameters : M unit := set_period ;;; set_step ;;; set_bins ;;; set_kwargs.

Definition cell4 : M unit := load_atlases ;;; parameters.

(** Cell 6: the figure. *)

(** [ax_x = fig.add_axes(rect)] followed by [ax_x.set_title(title)] *)
Definition new_panel (x : string) (rect : Q * Q * Q * Q) (title : string) : M unit :=
  let! fig := get_ref "fig" in
  let! l := add_axes fig rect in
  set_var x (VRef l) ;;;
  let! ax := get_ref x in
  set_title ax title.

Definition make_figure : M unit :=
  (let! fig := figure (12, 18.5) in set_var "fig" (VRef fig)) ;;;
  new_panel "ax_a" (0.03, 0.75, 0.90, 0.25) "Anticyclonic center frequency" ;;;
  new_panel "ax_c" (0.03, 0.5, 0.90, 0.25) "Cyclonic center frequency" ;;;
  new_panel "ax_all" (0.03, 0.25, 0.90, 0.25) "All eddies center frequency" ;;;
  new_panel "ax_ratio" (0.03, 0.0, 0.90, 0.25) "Ratio cyclonic / Anticyclonic".

(** [g = obs.grid_count(bins, intern=True, center=True)] *)
Definition count_centers (g obs : string) : M unit :=
  let! o := get_ref obs in
  let! b := get_bins "bins" in
  let! l := grid_count o b true true in
  set_var g (VRef l).

(** [g.display(ax, **kwargs_pcolormesh)] *)
Definition display_count (g ax : string) : M loc :=
  let! lg := get_ref g in
  let! la := get_ref ax in
  let! kw := get_kwargs "kwargs_pcolormesh" in
  display lg la kw.

Definition count_and_display : M unit :=
  count_centers "g_a" "a" ;;;
  (let! _m := display_count "g_a" "ax_a" in ret tt) ;;;
  count_centers "g_c" "c" ;;;
  (let! _m := display_count "g_c" "ax_c" in ret tt).

(** [ratio = g_c.vars["count"] / g_a.vars["count"]] *)
Definition compute_ratio : M unit :=
  let! x := vars_getitem "g_c" "count" in
  let! y := vars_getitem "g_a" "count" in
  let! r := ma_truediv x y in
  set_var "ratio" (VRef r).

(** [m_c = g_c.vars["count"].mask] *)
Definition take_mask_c : M unit :=
  let! x := vars_getitem "g_c" "count" in
  let! v := ma_get_mask x in
  set_var "m_c" v.

(** [m = m_c & g_a.vars["count"].mask] *)
Definition and_masks : M unit :=
  let! m_c := get_var "m_c" in
  let! y := vars_getitem "g_a" "count" in
  let! v := ma_get_mask y in
  let! r := bool_and m_c v in
  set_var "m" (VRef r).

(** [g_c.vars["count"][m_c] = 0] *)
Definition zero_masked_c : M unit :=
  let! x := vars_getitem "g_c" "count" in
  let! m_c := get_var "m_c" in
  ma_setitem x m_c 0.

(** [g_c.vars["count"] += g_a.vars["count"]] *)
Definition add_a : M unit :=
  let! x := vars_getitem "g_c" "count" in
  let! y := vars_getitem "g_a" "count" in
  let! r := ma_iadd x y in
  vars_setitem "g_c" "count" r.

(** [g_c.vars["count"].mask = m] *)
Definition set_mask_m : M unit :=
  let! x := vars_getitem "g_c" "count" in
  let! m := get_var "m" in
  ma_set_mask x m.

(** The mask manipulation that sums the two grids. *)
Definition sum_grids : M unit :=
  take_mask_c ;;; and_masks ;;; zero_masked_c ;;; add_a ;;; set_mask_m.

Definition compositor : M unit := compute_ratio ;;; sum_grids.

(** [m = g_c.display(ax_all, **kwargs_pcolormesh)];
    [cb = plt.colorbar(m, cax=fig.add_axes([0.94, 0.27, 0.01, 0.7]))];
    [cb.set_label("Eddies by 1°^2 by day")] *)
Definition show_all : M unit :=
  (let! m := display_count "g_c" "ax_all" in set_var "m" (VRef m)) ;;;
  (let! m := get_ref "m" in
   let! fig := get_ref "fig" in
   let! cax := add_axes fig (0.94, 0.27, 0.01, 0.7) in
   let! cb := plt_colorbar m cax in
   set_var "cb" (VRef cb)) ;;;
  (let! cb := get_ref "cb" in set_label cb "Eddies by 1°^2 by day").

(** [g_c.vars["count"] = ratio];
    [m = g_c.display(ax_ratio, name="count", vmin=0.1, vmax=10,
                     norm=LogNorm(), cmap='coolwarm_r')];
    [plt.colorbar(m, cax=fig.add_axes([0.94, 0.02, 0.01, 0.2]))] *)
Definition show_ratio : M unit :=
  (let! r := get_ref "ratio" in vars_setitem "g_c" "count" r) ;;;
  (let! lg := get_ref "g_c" in
   let! la := get_ref "ax_ratio" in
   let! m := display lg la
               {| kw_cmap := Some "coolwarm_r"%string; kw_vmin := Some 0.1;
                  kw_vmax := Some 10; kw_factor := None;
                  kw_name := Some "count"%string; kw_norm := Some LogNorm |} in
   set_var "m" (VRef m)) ;;;
  (let! m := get_ref "m" in
   let! fig := get_ref "fig" in
   let! cax := add_axes fig (0.94, 0.02, 0.01, 0.2) in
   let! _cb := plt_colorbar m cax in
   ret tt).

(** The body of the final loop, for one [ax]. *)
Definition format_axes : M unit :=
  (let! ax := get_ref "ax" in set_aspect ax "equal") ;;;
  (let! ax := get_ref "ax" in set_xlim ax (-6) 36.5) ;;;
  (let! ax := get_ref "ax" in set_ylim ax 30 46) ;;;
  (let! ax := get_ref "ax" in grid ax).

(** [for x in xs: body], the tuple [xs] evaluated first. *)
Fixpoint for_in (x : string) (xs : list value) (body : M unit) : M unit :=
  match xs with
  | [] => ret tt
  | v :: xs' => set_var x v ;;; body ;;; for_in x xs' body
  end.

(** [for ax in (ax_a, ax_c, ax_all, ax_ratio): ...] *)
Definition format_panels : M unit :=
  let! ax_a := get_var "ax_a" in
  let! ax_c := get_var "ax_c" in
  let! ax_all := get_var "ax_all" in
  let! ax_ratio := get_var "ax_ratio" in
  for_in "ax" [ax_a; ax_c; ax_all; ax_ratio] format_axes.

Definition cell6 : M unit :=
  make_figure ;;; count_and_display ;;; compositor ;;;
  show_all ;;; show_ratio ;;; format_panels.

(** The whole notebook ([%matplotlib inline] and the imports of cell 2 bind
    no data). *)
Definition main : M unit := cell4 ;;; cell6.

(** The state the notebook starts in: nothing bound, nothing allocated,
    the sample files on disk. *)
Definition initial (fs : gmap string observations) : state :=
  {| globals := ∅; heap := []; files := fs; loads := [] |}.

End notebook.

(** ** Reading the state *)

(** The "count" array of the grid dataset held by variable [g]: its place
    in the store and its contents. *)
Definition count_of (s : state) (g : string) : option (loc * ma.marray) :=
  match globals s !! g with
  | Some (VRef lg) =>
      match heap s !! lg with
      | Some (OGrid d) =>
          match vars d !! "count" with
          | Some l =>
              match heap s !! l with
              | Some (OMasked x) => Some (l, x)
              | _ => None
              end
          | None => None
          end
      | _ => None
      end
  | _ => None
  end.

(** The bin edges of the grid dataset held by variable [g]. *)
Definition bounds_of (s : state) (g : string) : option (list Q * list Q) :=
  match globals s !! g with
  | Some (VRef lg) =>
      match heap s !! lg with
      | Some (OGrid d) => Some (x_bounds d, y_bounds d)
      | _ => None
      end
  | _ => None
  end.

(** The masked array held by variable [x]. *)
Definition masked_of (s : state) (x : string) : option (loc * ma.marray) :=
  match globals s !! x with
  | Some (VRef l) =>
      match heap s !! l with
      | Some (OMasked a) => Some (l, a)
      | _ => None
      end
  | _ => None
  end.

(** The observation set held by variable [x]. *)
Definition obs_of (s : state) (x : string) : option observations :=
  match globals s !! x with
  | Some (VRef l) =>
      match heap s !! l with
      | Some (OObs o) => Some o
      | _ => None
      end
  | _ => None
  end.

(** The axes held by variable [x]. *)
Definition axes_of (s : state) (x : string) : option axes :=
  match globals s !! x with
  | Some (VRef l) =>
      match heap s !! l with
      | Some (OAxes a) => Some a
      | _ => None
      end
  | _ => None
  end.

Definition mesh_at (s : state) (l : loc) : option mesh :=
  match heap s !! l with
  | Some (OMesh m) => Some m
  | _ => None
  end.

(** The meshes drawn on the axes held by variable [x], in drawing order. *)
Definition drawn (s : state) (x : string) : option (list mesh) :=
  match axes_of s x with
  | Some a => mapM (mesh_at s) (ax_meshes a)
  | None => None
  end.

(** A statement returns the state it was given. *)
Definition reads {A} (m : M A) : Prop := ∀ s a s', m s = Ok a s' → s' = s.

(** A statement leaves the observation sets alone: whatever state it runs
    in, when it returns every observation set of the store is where it was
    and as it was, and no file was read. *)
Definition keeps_observations {A} (m : M A) : Prop :=
  ∀ s a s', m s = Ok a s' →
    loads s' = loads s ∧ files s' = files s ∧
    ∀ l o, heap s !! l = Some (OObs o) → heap s' !! l = Some (OObs o).

(** A statement raises in a state. *)
Definition raises {A} (m : M A) (s : state) : Prop := ∃ e, m s = Raise e.

(** ** Closed forms of the arrays the compositor builds *)

(** The result of [c / a] on arrays of one shape. *)
Definition quotient (c a : ma.marray) : ma.marray :=
  {| ma.ma_shape := ma.ma_shape c;
     ma.ma_data := ma.zip_with4 ma.div_data (ma.ma_data c) (ma.ma_data a)
                     (ma.ma_mask c) (ma.ma_mask a);
     ma.ma_mask := ma.zip_with4 ma.div_mask (ma.ma_data c) (ma.ma_data a)
                     (ma.ma_mask c) (ma.ma_mask a) |}.

(** The contents of the cyclonic array once [c[m_c] = 0], [c += a] and
    [c.mask = m_c & m_a] have run, from the original [c] and [a]. *)
Definition combined (c a : ma.marray) : ma.marray :=
  {| ma.ma_shape := ma.ma_shape c;
     ma.ma_data :=
       zip_with Qplus
         (zip_with (λ d (b : bool), if b then 0 else d) (ma.ma_data c) (ma.ma_mask c))
         (zip_with (λ (b : bool) d, if b then 0 else d)
            (zip_with orb
               (zip_with (λ m (b : bool), if b then false else m) (ma.ma_mask c) (ma.ma_mask c))
               (ma.ma_mask a))
            (ma.ma_data a));
     ma.ma_mask := zip_with andb (ma.ma_mask c) (ma.ma_mask a) |}.

(** ** The stores the notebook passes through *)

Module trace.

Definition the_bins : bins := ((-10, 37, 0.125), (30, 46, 0.125)).

(** [1 / (step ** 2 * (t1 - t0))] for the period of the observation set [o]. *)
Definition factor (o : observations) : Q :=
  1 / (0.125 ^ 2 * ((obs_period o).2 - (obs_period o).1)).

Definition kwargs_pcolormesh (oa : observations) : kwargs :=
  {| kw_cmap := Some "terrain_r"%string; kw_vmin := Some 0; kw_vmax := Some 2;
     kw_factor := Some (factor oa); kw_name := Some "count"%string; kw_norm := None |}.

Definition counts (o : observations) : ma.marray := count_array (obs_records o) the_bins.

Definition count_grid (l : loc) : obj :=
  OGrid {| x_bounds := edges the_bins.1; y_bounds := edges the_bins.2;
           vars := {["count" := l]} |}.

Definition count_mesh (x : ma.marray) (oa : observations) : obj :=
  OMesh {| mesh_values := ma.mul_scalar x (factor oa); mesh_cmap := Some "terrain_r"%string;
           mesh_vmin := Some 0; mesh_vmax := Some 2; mesh_norm := Linear |}.

Definition ratio_mesh (x : ma.marray) : obj :=
  OMesh {| mesh_values := ma.mul_scalar x 1; mesh_cmap := Some "coolwarm_r"%string;
           mesh_vmin := Some 0.1; mesh_vmax := Some 10; mesh_norm := LogNorm |}.

(** A panel before and after the final loop. *)
Definition panel (rect : Q * Q * Q * Q) (title : string) (meshes : list loc) : obj :=
  OAxes {| ax_rect := rect; ax_title := Some title; ax_aspect := None; ax_xlim := None;
           ax_ylim := None; ax_grid := false; ax_meshes := meshes |}.

Definition formatted (rect : Q * Q * Q * Q) (title : string) (meshes : list loc) : obj :=
  OAxes {| ax_rect := rect; ax_title := Some title; ax_aspect := Some "equal"%string;
           ax_xlim := Some (-6, 36.5); ax_ylim := Some (30, 46); ax_grid := true;
           ax_meshes := meshes |}.

Definition rect_a : Q * Q * Q * Q := (0.03, 0.75, 0.90, 0.25).
Definition rect_c : Q * Q * Q * Q := (0.03, 0.5, 0.90, 0.25).
Definition rect_all : Q * Q * Q * Q := (0.03, 0.25, 0.90, 0.25).
Definition rect_ratio : Q * Q * Q * Q := (0.03, 0.0, 0.90, 0.25).

Definition vars_loaded (oa : observations) : list (string * value) :=
  [("a", VRef 0); ("c", VRef 1);
   ("t0", VNum (obs_period oa).1); ("t1", VNum (obs_period oa).2);
   ("step", VNum 0.125); ("bins", VBins the_bins);
   ("kwargs_pcolormesh", VKwargs (kwargs_pcolormesh oa))]%string.

Definition vars_counted (oa : observations) : list (string * value) :=
  [("fig", VRef 2); ("ax_a", VRef 3); ("ax_c", VRef 4); ("ax_all", VRef 5);
   ("ax_ratio", VRef 6); ("g_a", VRef 8); ("g_c", VRef 11)]%string ++ vars_loaded oa.

(** After the two loads of cell 4. *)
Definition opened (fs : gmap string observations) (oa oc : observations) : state :=
  {| globals := list_to_map [("a", VRef 0); ("c", VRef 1)]%string;
     heap := [OObs oa; OObs oc];
     files := fs;
     loads := [notebook.anticyclonic_zarr; notebook.cyclonic_zarr] |}.

(** After cell 4. *)
Definition loaded (fs : gmap string observations) (oa oc : observations) : state :=
  {| globals := list_to_map (vars_loaded oa);
     heap := [OObs oa; OObs oc];
     files := fs;
     loads := [notebook.anticyclonic_zarr; notebook.cyclonic_zarr] |}.

(** After the two counts and their display. *)
Definition counted (fs : gmap string observations) (oa oc : observations) : state :=
  {| globals := list_to_map (vars_counted oa);
     heap := [OObs oa; OObs oc;
              OFigure (12, 18.5) [3; 4; 5; 6]%nat;
              panel rect_a "Anticyclonic center frequency" [9%nat];
              panel rect_c "Cyclonic center frequency" [12%nat];
              panel rect_all "All eddies center frequency" [];
              panel rect_ratio "Ratio cyclonic / Anticyclonic" [];
              OMasked (counts oa); count_grid 7%nat; count_mesh (counts oa) oa;
              OMasked (counts oc); count_grid 10%nat; count_mesh (counts oc) oa];
     files := fs;
     loads := [notebook.anticyclonic_zarr; notebook.cyclonic_zarr] |}.

(** After the compositor. *)
Definition composed (fs : gmap string observations) (oa oc : observations) : state :=
  {| globals := list_to_map
       ([("ratio", VRef 13); ("m_c", VMaskView 10); ("m", VRef 14)]%string ++ vars_counted oa);
     heap := [OObs oa; OObs oc;
              OFigure (12, 18.5) [3; 4; 5; 6]%nat;
              panel rect_a "Anticyclonic center frequency" [9%nat];
              panel rect_c "Cyclonic center frequency" [12%nat];
              panel rect_all "All eddies center frequency" [];
              panel rect_ratio "Ratio cyclonic / Anticyclonic" [];
              OMasked (counts oa); count_grid 7%nat; count_mesh (counts oa) oa;
              OMasked (combined (counts oc) (counts oa)); count_grid 10%nat;
              count_mesh (counts oc) oa;
              OMasked (quotient (counts oc) (counts oa));
              OBool (ma.ma_shape (counts oc))
                (zip_with andb (ma.ma_mask (counts oc)) (ma.ma_mask (counts oa)))];
     files := fs;
     loads := [notebook.anticyclonic_zarr; notebook.cyclonic_zarr] |}.

(** At the end of the notebook. *)
Definition final (fs : gmap string observations) (oa oc : observations) : state :=
  {| globals := list_to_map
       ([("ax", VRef 6); ("cb", VRef 17); ("ratio", VRef 13); ("m_c", VMaskView 10);
         ("m", VRef 18)]%string ++ vars_counted oa);
     heap := [OObs oa; OObs oc;
              OFigure (12, 18.5) [3; 4; 5; 6; 16; 19]%nat;
              formatted rect_a "Anticyclonic center frequency" [9%nat];
              formatted rect_c "Cyclonic center frequency" [12%nat];
              formatted rect_all "All eddies center frequency" [15%nat];
              formatted rect_ratio "Ratio cyclonic / Anticyclonic" [18%nat];
              OMasked (counts oa); count_grid 7%nat; count_mesh (counts oa) oa;
              OMasked (combined (counts oc) (counts oa)); count_grid 13%nat;
              count_mesh (counts oc) oa;
              OMasked (quotient (counts oc) (counts oa));
              OBool (ma.ma_shape (counts oc))
                (zip_with andb (ma.ma_mask (counts oc)) (ma.ma_mask (counts oa)));
              count_mesh (combined (counts oc) (counts oa)) oa;
              OAxes (new_axes (0.94, 0.27, 0.01, 0.7));
              OColorbar {| cb_mappable := 15; cb_cax := 16;
                           cb_label := Some "Eddies by 1°^2 by day"%string |};
              ratio_mesh (quotient (counts oc) (counts oa));
              OAxes (new_axes (0.94, 0.02, 0.01, 0.2));
              OColorbar {| cb_mappable := 18; cb_cax := 19; cb_label := None |}];
     files := fs;
     loads := [notebook.anticyclonic_zarr; notebook.cyclonic_zarr] |}.

End trace.

(** ** Small inputs *)

Module sample.

(** The state right after the two counts, reduced to what the compositor
    touches: the datasets [g_a] and [g_c] with the given "count" arrays. *)
Definition two_grids (a c : ma.marray) : state :=
  {| globals := {[ "g_a" := VRef 1; "g_c" := VRef 3 ]}%string;
     heap := [OMasked a; OGrid {| x_bounds := []; y_bounds := []; vars := {["count" := 0%nat]} |};
              OMasked c; OGrid {| x_bounds := []; y_bounds := []; vars := {["count" := 2%nat]} |}];
     files := ∅;
     loads := [] |}.

(** Counts over a 2 x 2 lattice: zero-count bins are masked. *)
Definition count_a : ma.marray :=
  {| ma.ma_shape := (2, 2)%nat; ma.ma_data := [4; 0; 2; 0]; ma.ma_mask := [false; true; false; true] |}.

Definition count_c : ma.marray :=
  {| ma.ma_shape := (2, 2)%nat; ma.ma_data := [6; 3; 0; 0]; ma.ma_mask := [false; false; true; true] |}.

(** An anticyclonic array with a zero count at an unmasked cell. *)
Definition zero_a : ma.marray :=
  {| ma.ma_shape := (1, 2)%nat; ma.ma_data := [0; 2]; ma.ma_mask := [false; false] |}.

Definition one_c : ma.marray :=
  {| ma.ma_shape := (1, 2)%nat; ma.ma_data := [1; 1]; ma.ma_mask := [false; false] |}.

(** Two small atlases with different periods. *)
Definition anticyclonic : observations :=
  {| obs_records := [Eddy 0 31 false; Eddy 0.05 31.01 false; Eddy 5 40 false];
     obs_period := (15706, 25201) |}.

Definition cyclonic : observations :=
  {| obs_records := [Eddy 0 31 true; Eddy 7 35 true];
     obs_period := (15800, 25000) |}.

Definition disk : gmap string observations :=
  {[ notebook.anticyclonic_zarr := anticyclonic; notebook.cyclonic_zarr := cyclonic ]}.

End sample.

(** ** More readings of the state *)

(** numpy's broadcasting rule for two 2-D shapes: on each axis the lengths
    are equal or one of them is 1. *)
Definition broadcastable (s1 s2 : ma.shape) : Prop :=
  (s1.1 = s2.1 ∨ s1.1 = 1%nat ∨ s2.1 = 1%nat) ∧
  (s1.2 = s2.2 ∨ s1.2 = 1%nat ∨ s2.2 = 1%nat).


(** What the body of the final loop makes of an axes: aspect and limits
    set, gridlines toggled, the rest as it was. *)
Definition formatted_axes (a : axes) : axes :=
  {| ax_rect := ax_rect a; ax_title := ax_title a; ax_aspect := Some "equal"%string;
     ax_xlim := Some (-6, 36.5); ax_ylim := Some (30, 46); ax_grid := negb (ax_grid a);
     ax_meshes := ax_meshes a |}.

(** An axes that went [n] times through the body of the loop. *)
Definition formatted_times (n : nat) (a : axes) : axes :=
  match n with
  | O => a
  | S _ =>
      {| ax_rect := ax_rect a; ax_title := ax_title a; ax_aspect := Some "equal"%string;
         ax_xlim := Some (-6, 36.5); ax_ylim := Some (30, 46);
         ax_grid := xorb (ax_grid a) (Nat.odd n);
         ax_meshes := ax_meshes a |}
  end.

(** How many of the names of the loop's tuple, bound to [ls], hold [l]. *)
Definition visits (ls : list loc) (l : loc) : nat := count_occ Nat.eq_dec ls l.

Definition format_obj (o : obj) : obj :=
  match o with
  | OAxes a => OAxes (formatted_axes a)
  | _ => o
  end.

(** The store once the axes at [l] went through the body of the loop. *)
Definition format_at (h : list obj) (l : loc) : list obj :=
  match h !! l with
  | Some (OAxes a) => <[l := OAxes (formatted_axes a)]> h
  | _ => h
  end.

(** The state after the final loop went over the axes at [ls]: each one
    through the body, [ax] left bound to the last. *)
Definition after_loop (s : state) (ls : list loc) : state :=
  {| globals := match last ls with
                | Some l => <["ax" := VRef l]> (globals s)
                | None => globals s
                end;
     heap := foldl format_at (heap s) ls;
     files := files s; loads := loads s |}.

(** The eddy centers of [recs] that fall in cell ([i], [j]) of the lattice
    [b]: what the Binner counts there. *)
Definition centers_in_cell (recs : list eddy) (b : bins) (i j : nat) : nat :=
  length (filter (λ e, in_bin b.1 i (lon e) && in_bin b.2 j (lat e)) recs).

(** The state once the figure and its four panels are made in [s]. *)
Definition with_figure (s : state) : state :=
  let n := length (heap s) in
  {| globals :=
       <["ax_ratio" := VRef (n + 4)]>
         (<["ax_all" := VRef (n + 3)]>
            (<["ax_c" := VRef (n + 2)]>
               (<["ax_a" := VRef (n + 1)]>
                  (<["fig" := VRef n]> (globals s)))));
     heap := heap s ++
       [OFigure (12, 18.5) [n + 1; n + 2; n + 3; n + 4]%nat;
        trace.panel trace.rect_a "Anticyclonic center frequency" [];
        trace.panel trace.rect_c "Cyclonic center frequency" [];
        trace.panel trace.rect_all "All eddies center frequency" [];
        trace.panel trace.rect_ratio "Ratio cyclonic / Anticyclonic" []];
     files := files s; loads := loads s |}.

(** The state once the figure and its four panels are made, nothing else
    being bound. *)
Definition blank_figure : state :=
  match notebook.make_figure (notebook.initial ∅) with
  | Ok _ s => s
  | Raise _ => notebook.initial ∅
  end.

(** An anticyclonic array whose shape cannot be broadcast against the
    2 x 2 arrays of [sample]. *)
Definition wide_a : ma.marray :=
  {| ma.ma_shape := (1, 3)%nat; ma.ma_data := [1; 2; 3];
     ma.ma_mask := [false; false; false] |}.

(** * Proofs *)

Import notebook.

(** ** The monad *)

Section monad_laws.
Context {A B C : Type}.

Lemma bind_Ok (m : M A) (k : A → M B) s a s' :
  m s = Ok a s' → bind m k s = k a s'.
Proof. unfold bind. by intros ->. Qed.

Lemma bind_assoc (m : M A) (k : A → M B) (k' : B → M C) s :
  bind (bind m k) k' s = bind m (λ a, bind (k a) k') s.
Proof. unfold bind. by destruct (m s). Qed.
End monad_laws.

Section ops.
Implicit Types (s : state) (l : loc) (x y : ma.marray).

Lemma get_var_Ok s v n : globals s !! n = Some v → get_var n s = Ok v s.
Proof. intros H. unfold get_var, of_option, ret. by rewrite H. Qed.

Lemma get_ref_Ok s n l : globals s !! n = Some (VRef l) → get_ref n s = Ok l s.
Proof. intros H. unfold get_ref. by rewrite (bind_Ok _ _ _ _ _ (get_var_Ok _ _ _ H)). Qed.

Lemma get_num_Ok s n q : globals s !! n = Some (VNum q) → get_num n s = Ok q s.
Proof. intros H. unfold get_num. by rewrite (bind_Ok _ _ _ _ _ (get_var_Ok _ _ _ H)). Qed.

Lemma get_bins_Ok s n b : globals s !! n = Some (VBins b) → get_bins n s = Ok b s.
Proof. intros H. unfold get_bins. by rewrite (bind_Ok _ _ _ _ _ (get_var_Ok _ _ _ H)). Qed.

Lemma get_kwargs_Ok s n k : globals s !! n = Some (VKwargs k) → get_kwargs n s = Ok k s.
Proof. intros H. unfold get_kwargs. by rewrite (bind_Ok _ _ _ _ _ (get_var_Ok _ _ _ H)). Qed.

Lemma load_Ok s l o : heap s !! l = Some o → load l s = Ok o s.
Proof. intros H. unfold load, of_option, ret. by rewrite H. Qed.

Lemma load_masked_Ok s l x : heap s !! l = Some (OMasked x) → load_masked l s = Ok x s.
Proof. intros H. unfold load_masked. by rewrite (bind_Ok _ _ _ _ _ (load_Ok _ _ _ H)). Qed.

Lemma load_grid_Ok s l g : heap s !! l = Some (OGrid g) → load_grid l s = Ok g s.
Proof. intros H. unfold load_grid. by rewrite (bind_Ok _ _ _ _ _ (load_Ok _ _ _ H)). Qed.

Lemma load_axes_Ok s l a : heap s !! l = Some (OAxes a) → load_axes l s = Ok a s.
Proof. intros H. unfold load_axes. by rewrite (bind_Ok _ _ _ _ _ (load_Ok _ _ _ H)). Qed.

Lemma load_obs_Ok s l o : heap s !! l = Some (OObs o) → load_obs l s = Ok o s.
Proof. intros H. unfold load_obs. by rewrite (bind_Ok _ _ _ _ _ (load_Ok _ _ _ H)). Qed.

Lemma read_bool_view s l x :
  heap s !! l = Some (OMasked x) →
  read_bool (VMaskView l) s = Ok (ma.ma_shape x, ma.ma_mask x) s.
Proof. intros H. simpl. by rewrite (bind_Ok _ _ _ _ _ (load_masked_Ok _ _ _ H)). Qed.

Lemma read_bool_ref s l sh b :
  heap s !! l = Some (OBool sh b) → read_bool (VRef l) s = Ok (sh, b) s.
Proof. intros H. simpl. by rewrite (bind_Ok _ _ _ _ _ (load_Ok _ _ _ H)). Qed.

Lemma py_div_Ok s a b : ¬ b == 0 → py_div a b s = Ok (a / b) s.
Proof.
  intros H. unfold py_div. destruct (Qeq_bool b 0) eqn:E; [|done].
  by apply Qeq_bool_iff in E.
Qed.
End ops.

Section ma_total.
Import ma.
Implicit Types x y : marray.

Lemma true_divide_ok x y :
  ma_shape x = ma_shape y →
  true_divide x y = inr
    {| ma_shape := ma_shape x;
       ma_data := zip_with4 div_data (ma_data x) (ma_data y) (ma_mask x) (ma_mask y);
       ma_mask := zip_with4 div_mask (ma_data x) (ma_data y) (ma_mask x) (ma_mask y) |}.
Proof. intros H. unfold true_divide. by rewrite decide_True. Qed.

Lemma logical_and_ok (b1 b2 : shape * list bool) :
  b1.1 = b2.1 → logical_and b1 b2 = inr (b1.1, zip_with andb b1.2 b2.2).
Proof. intros H. unfold logical_and. by rewrite decide_True. Qed.

Lemma setitem_bool_ok x (i : shape * list bool) v :
  i.1 = ma_shape x →
  setitem_bool x i v = inr
    {| ma_shape := ma_shape x;
       ma_data := zip_with (λ d (b : bool), if b then v else d) (ma_data x) i.2;
       ma_mask := zip_with (λ m (b : bool), if b then false else m) (ma_mask x) i.2 |}.
Proof. intros H. unfold setitem_bool. by rewrite decide_True. Qed.

Lemma iadd_ok x y :
  ma_shape x = ma_shape y →
  iadd x y = inr
    {| ma_shape := ma_shape x;
       ma_data := zip_with Qplus (ma_data x)
                    (zip_with (λ (b : bool) d, if b then 0 else d)
                       (zip_with orb (ma_mask x) (ma_mask y)) (ma_data y));
       ma_mask := zip_with orb (ma_mask x) (ma_mask y) |}.
Proof. intros H. unfold iadd. by rewrite decide_True. Qed.

Lemma set_mask_ok x (m : shape * list bool) :
  m.1 = ma_shape x →
  set_mask x m = inr {| ma_shape := ma_shape x; ma_data := ma_data x; ma_mask := m.2 |}.
Proof. intros H. unfold set_mask. by rewrite decide_True. Qed.
End ma_total.

Section store_ops.
Implicit Types (s : state) (l : loc) (x y : ma.marray).

Lemma ma_truediv_Ok s lx ly x y r :
  heap s !! lx = Some (OMasked x) → heap s !! ly = Some (OMasked y) →
  ma.true_divide x y = inr r →
  ma_truediv lx ly s = Ok (length (heap s)) (set_heap (λ h, h ++ [OMasked r]) s).
Proof.
  intros Hx Hy Hr. unfold ma_truediv.
  rewrite (bind_Ok _ _ _ _ _ (load_masked_Ok _ _ _ Hx)).
  rewrite (bind_Ok _ _ _ _ _ (load_masked_Ok _ _ _ Hy)).
  by rewrite Hr.
Qed.

Lemma ma_get_mask_Ok s l x :
  heap s !! l = Some (OMasked x) → ma_get_mask l s = Ok (VMaskView l) s.
Proof. intros H. unfold ma_get_mask. by rewrite (bind_Ok _ _ _ _ _ (load_masked_Ok _ _ _ H)). Qed.

Lemma bool_and_Ok s v1 v2 b1 b2 r :
  read_bool v1 s = Ok b1 s → read_bool v2 s = Ok b2 s →
  ma.logical_and b1 b2 = inr r →
  bool_and v1 v2 s = Ok (length (heap s)) (set_heap (λ h, h ++ [OBool r.1 r.2]) s).
Proof.
  intros H1 H2 Hr. unfold bool_and.
  by rewrite (bind_Ok _ _ _ _ _ H1), (bind_Ok _ _ _ _ _ H2), Hr.
Qed.

Lemma ma_setitem_Ok s l idx v x i r :
  heap s !! l = Some (OMasked x) → read_bool idx s = Ok i s →
  ma.setitem_bool x i v = inr r →
  ma_setitem l idx v s = Ok tt (set_heap <[l := OMasked r]> s).
Proof.
  intros Hx Hi Hr. unfold ma_setitem.
  by rewrite (bind_Ok _ _ _ _ _ (load_masked_Ok _ _ _ Hx)), (bind_Ok _ _ _ _ _ Hi), Hr.
Qed.

Lemma ma_iadd_Ok s lx ly x y r :
  heap s !! lx = Some (OMasked x) → heap s !! ly = Some (OMasked y) →
  ma.iadd x y = inr r →
  ma_iadd lx ly s = Ok lx (set_heap <[lx := OMasked r]> s).
Proof.
  intros Hx Hy Hr. unfold ma_iadd.
  rewrite (bind_Ok _ _ _ _ _ (load_masked_Ok _ _ _ Hx)).
  rewrite (bind_Ok _ _ _ _ _ (load_masked_Ok _ _ _ Hy)).
  by rewrite Hr.
Qed.

Lemma ma_set_mask_Ok s l m x b r :
  heap s !! l = Some (OMasked x) → read_bool m s = Ok b s →
  ma.set_mask x b = inr r →
  ma_set_mask l m s = Ok tt (set_heap <[l := OMasked r]> s).
Proof.
  intros Hx Hb Hr. unfold ma_set_mask.
  by rewrite (bind_Ok _ _ _ _ _ (load_masked_Ok _ _ _ Hx)), (bind_Ok _ _ _ _ _ Hb), Hr.
Qed.

Lemma vars_getitem_Ok s g lg d name l :
  globals s !! g = Some (VRef lg) → heap s !! lg = Some (OGrid d) →
  vars d !! name = Some l → vars_getitem g name s = Ok l s.
Proof.
  intros Hg Hlg Hv. unfold vars_getitem.
  rewrite (bind_Ok _ _ _ _ _ (get_ref_Ok _ _ _ Hg)).
  rewrite (bind_Ok _ _ _ _ _ (load_grid_Ok _ _ _ Hlg)).
  by rewrite Hv.
Qed.

Lemma vars_setitem_Ok s g lg d name l :
  globals s !! g = Some (VRef lg) → heap s !! lg = Some (OGrid d) →
  vars_setitem g name l s =
    Ok tt (set_heap <[lg := OGrid {| x_bounds := x_bounds d; y_bounds := y_bounds d;
                                     vars := <[name := l]> (vars d) |}]> s).
Proof.
  intros Hg Hlg. unfold vars_setitem.
  rewrite (bind_Ok _ _ _ _ _ (get_ref_Ok _ _ _ Hg)).
  by rewrite (bind_Ok _ _ _ _ _ (load_grid_Ok _ _ _ Hlg)).
Qed.
End store_ops.

Section library_ops.
Implicit Types (s : state) (l : loc).

Lemma load_file_Ok s path o :
  files s !! path = Some o →
  load_file path s =
    Ok (length (heap s))
       {| globals := globals s; heap := heap s ++ [OObs o]; files := files s;
          loads := loads s ++ [path] |}.
Proof. intros H. unfold load_file, bind, of_option. by rewrite H. Qed.

Lemma period_Ok s l o : heap s !! l = Some (OObs o) → period l s = Ok (obs_period o) s.
Proof. intros H. unfold period. by rewrite (bind_Ok _ _ _ _ _ (load_obs_Ok _ _ _ H)). Qed.

Lemma grid_count_Ok s l o b i c :
  heap s !! l = Some (OObs o) →
  grid_count l b i c s =
    Ok (S (length (heap s)))
       (set_heap (λ h, h ++ [OMasked (count_array (obs_records o) b);
                             OGrid {| x_bounds := edges b.1; y_bounds := edges b.2;
                                      vars := {["count" := length h]} |}]) s).
Proof.
  intros H. unfold grid_count. rewrite (bind_Ok _ _ _ _ _ (load_obs_Ok _ _ _ H)).
  unfold bind, alloc, set_heap. cbn [heap globals files loads].
  rewrite length_app. cbn [length]. rewrite Nat.add_1_r, <-app_assoc. done.
Qed.

Lemma display_Ok s lg la kw name g lx x a :
  kw_name kw = Some name → heap s !! lg = Some (OGrid g) →
  vars g !! name = Some lx → heap s !! lx = Some (OMasked x) →
  heap s !! la = Some (OAxes a) →
  display lg la kw s =
    Ok (length (heap s))
       (set_heap (λ h, <[la := OAxes (add_mesh a (length h))]>
          (h ++ [OMesh {| mesh_values := ma.mul_scalar x (default 1 (kw_factor kw));
                          mesh_cmap := kw_cmap kw; mesh_vmin := kw_vmin kw;
                          mesh_vmax := kw_vmax kw;
                          mesh_norm := default Linear (kw_norm kw) |}])) s).
Proof.
  intros Hn Hg Hv Hx Ha. unfold display, bind. rewrite Hn. cbn [of_option ret].
  rewrite (load_grid_Ok _ _ _ Hg), Hv. cbn [of_option ret].
  by rewrite (load_masked_Ok _ _ _ Hx), (load_axes_Ok _ _ _ Ha).
Qed.

Lemma add_axes_Ok s fig rect sz axs :
  heap s !! fig = Some (OFigure sz axs) →
  add_axes fig rect s =
    Ok (length (heap s))
       (set_heap (λ h, <[fig := OFigure sz (axs ++ [length h])]>
                         (h ++ [OAxes (new_axes rect)])) s).
Proof. intros H. unfold add_axes. by rewrite (bind_Ok _ _ _ _ _ (load_Ok _ _ _ H)). Qed.

Lemma update_axes_Ok s l f a :
  heap s !! l = Some (OAxes a) →
  update_axes l f s = Ok tt (set_heap <[l := OAxes (f a)]> s).
Proof. intros H. unfold update_axes. by rewrite (bind_Ok _ _ _ _ _ (load_axes_Ok _ _ _ H)). Qed.

Lemma plt_colorbar_Ok s lm cax m a :
  heap s !! lm = Some (OMesh m) → heap s !! cax = Some (OAxes a) →
  plt_colorbar lm cax s =
    Ok (length (heap s))
       (set_heap (λ h, h ++ [OColorbar {| cb_mappable := lm; cb_cax := cax;
                                          cb_label := None |}]) s).
Proof.
  intros Hm Ha. unfold plt_colorbar. rewrite (bind_Ok _ _ _ _ _ (load_Ok _ _ _ Hm)).
  by rewrite (bind_Ok _ _ _ _ _ (load_axes_Ok _ _ _ Ha)).
Qed.

Lemma set_label_Ok s l t c :
  heap s !! l = Some (OColorbar c) →
  set_label l t s =
    Ok tt (set_heap <[l := OColorbar {| cb_mappable := cb_mappable c; cb_cax := cb_cax c;
                                        cb_label := Some t |}]> s).
Proof. intros H. unfold set_label. by rewrite (bind_Ok _ _ _ _ _ (load_Ok _ _ _ H)). Qed.
End library_ops.

Lemma counts_shape o : ma.ma_shape (trace.counts o) = shape_of_bins trace.the_bins.
Proof. reflexivity. Qed.

(** ** Running a statement symbolically *)

(** Lookups in the store and in the namespace. *)
Ltac len_side := rewrite ?length_insert, ?length_app; simpl; lia.
Ltac heap_lookup :=
  cbn [heap globals files loads set_heap set_globals vars x_bounds y_bounds];
  repeat first
    [ rewrite list_lookup_insert_eq by len_side
    | rewrite list_lookup_insert_ne by (congruence || len_side)
    | rewrite lookup_app_l by len_side
    | rewrite list_lookup_middle by len_side ];
  first [eassumption | reflexivity].
Ltac var_lookup :=
  cbn [heap globals files loads set_heap set_globals vars x_bounds y_bounds];
  repeat first
    [ rewrite lookup_insert_eq
    | rewrite lookup_insert_ne by done ];
  first [eassumption | reflexivity].
Ltac side := first [eassumption | reflexivity | var_lookup | heap_lookup].
Ltac shape_side :=
  cbn [ma.ma_shape fst snd]; first [reflexivity | eassumption | congruence].

(** The state after a step, as a record. *)
Ltac norm_state :=
  cbv [set_heap set_globals initial add_mesh new_axes];
  cbn [ma.ma_shape ma.ma_data ma.ma_mask fst snd heap globals files loads
       set_heap set_globals initial app length insert list_insert
       add_mesh new_axes ax_rect ax_title ax_aspect ax_xlim ax_ylim ax_grid ax_meshes
       cb_mappable cb_cax cb_label kw_cmap kw_vmin kw_vmax kw_factor kw_name kw_norm
       default from_option id].

(** One operation: its lemma, with the lookups it asks for. *)
Ltac op :=
  lazymatch goal with
  | |- get_var _ _ = _ => eapply get_var_Ok; side
  | |- get_ref _ _ = _ => eapply get_ref_Ok; side
  | |- get_num _ _ = _ => eapply get_num_Ok; side
  | |- get_bins _ _ = _ => eapply get_bins_Ok; side
  | |- get_kwargs _ _ = _ => eapply get_kwargs_Ok; side
  | |- vars_getitem _ _ _ = _ => eapply vars_getitem_Ok; side
  | |- vars_setitem _ _ _ _ = _ => eapply vars_setitem_Ok; side
  | |- ma_truediv _ _ _ = _ => eapply ma_truediv_Ok; [side | side | apply true_divide_ok; shape_side]
  | |- ma_get_mask _ _ = _ => eapply ma_get_mask_Ok; side
  | |- read_bool (VMaskView _) _ = _ => eapply read_bool_view; side
  | |- read_bool (VRef _) _ = _ => eapply read_bool_ref; side
  | |- bool_and _ _ _ = _ => eapply bool_and_Ok; [op | op | apply logical_and_ok; shape_side]
  | |- ma_setitem _ _ _ _ = _ => eapply ma_setitem_Ok; [side | op | apply setitem_bool_ok; shape_side]
  | |- ma_iadd _ _ _ = _ => eapply ma_iadd_Ok; [side | side | apply iadd_ok; shape_side]
  | |- ma_set_mask _ _ _ = _ => eapply ma_set_mask_Ok; [side | op | apply set_mask_ok; shape_side]
  | |- load_file _ _ = _ => eapply load_file_Ok; side
  | |- period _ _ = _ => eapply period_Ok; side
  | |- py_div _ _ _ = _ => eapply py_div_Ok; eassumption
  | |- grid_count _ _ _ _ _ = _ => eapply grid_count_Ok; side
  | |- display _ _ _ _ = _ => eapply display_Ok; side
  | |- add_axes _ _ _ = _ => eapply add_axes_Ok; side
  | |- update_axes _ _ _ = _ => eapply update_axes_Ok; side
  | |- plt_colorbar _ _ _ = _ => eapply plt_colorbar_Ok; side
  | |- set_label _ _ _ = _ => eapply set_label_Ok; side
  | |- set_var _ _ _ = _ => reflexivity
  | |- alloc _ _ = _ => reflexivity
  | |- store _ _ _ = _ => reflexivity
  | |- ret _ _ = _ => reflexivity
  end.

(** One step of a run: the operation at the head of the program. *)
Ltac step :=
  lazymatch goal with
  | |- bind (bind _ _) _ _ = _ => rewrite bind_assoc
  | |- for_in _ _ _ _ = _ => cbn [for_in]
  | |- bind _ _ _ = _ => erewrite bind_Ok; [| op]; norm_state
  | |- _ => op; norm_state
  end.

Create HintDb nb.
#[local] Hint Unfold main cell4 cell6 load_atlases parameters load_a load_c
  set_period set_step set_bins set_kwargs
  make_figure new_panel count_and_display count_centers display_count
  compositor compute_ratio sum_grids take_mask_c and_masks zero_masked_c add_a set_mask_m
  show_all show_ratio format_panels format_axes
  figure set_title set_aspect set_xlim set_ylim grid get_path : nb.

Lemma run_to {A} (m : M A) s a s1 s2 : m s = Ok a s1 → s1 = s2 → m s = Ok a s2.
Proof. by intros -> ->. Qed.

Lemma seq_assoc_Ok {A B C} (m1 : M A) (m2 : M B) (k : M C) s b s1 :
  bind m1 (λ _, m2) s = Ok b s1 → bind m1 (λ _, bind m2 (λ _, k)) s = k s1.
Proof. unfold bind. destruct (m1 s); [|done]. by intros ->. Qed.

Ltac run := autounfold with nb; eapply run_to; [repeat step | norm_state].

(** ** Worked examples *)

(** A zero divisor masks the cell and keeps the dividend's data; a masked
    operand masks the cell. *)
Example true_divide_by_zero :
  ma.true_divide
    {| ma.ma_shape := (1, 3)%nat; ma.ma_data := [6; 1; 5]; ma.ma_mask := [false; false; true] |}
    {| ma.ma_shape := (1, 3)%nat; ma.ma_data := [4; 0; 2]; ma.ma_mask := [false; false; false] |}
  = inr {| ma.ma_shape := (1, 3)%nat; ma.ma_data := [6 / 4; 1; 5];
           ma.ma_mask := [false; true; true] |}.
Proof. reflexivity. Qed.

Example true_divide_shapes :
  ma.true_divide
    {| ma.ma_shape := (1, 2)%nat; ma.ma_data := [6; 1]; ma.ma_mask := [false; false] |}
    {| ma.ma_shape := (2, 1)%nat; ma.ma_data := [4; 2]; ma.ma_mask := [false; false] |}
  = inl ma.BroadcastError.
Proof. reflexivity. Qed.

(** [m_c] is a view: once [g_c.vars["count"][m_c] = 0] has run it reads all
    False. *)
Example mask_view_follows_the_array :
  ∃ s', (take_mask_c ;;; zero_masked_c ;;; let! v := get_var "m_c" in read_bool v)
          (sample.two_grids sample.count_a sample.count_c)
        = Ok ((2, 2)%nat, [false; false; false; false]) s'.
Proof. eexists. reflexivity. Qed.

(** The order of the statements matters: were the masks combined after the
    cyclonic array is zeroed, the combined mask would be all False. *)
Example and_masks_after_zeroing :
  ∃ s', (take_mask_c ;;; zero_masked_c ;;; and_masks ;;; add_a ;;; set_mask_m)
          (sample.two_grids sample.count_a sample.count_c) = Ok tt s' ∧
        (snd <$> count_of s' "g_c")
        = Some {| ma.ma_shape := (2, 2)%nat; ma.ma_data := [6 + 4; 3 + 0; 0 + 2; 0 + 0];
                  ma.ma_mask := [false; false; false; false] |}.
Proof. eexists. split; reflexivity. Qed.

(** The compositor on the same arrays: the cell masked in both stays masked. *)
Example compositor_on_sample :
  ∃ s', compositor (sample.two_grids sample.count_a sample.count_c) = Ok tt s' ∧
        (snd <$> count_of s' "g_c")
        = Some {| ma.ma_shape := (2, 2)%nat; ma.ma_data := [6 + 4; 3 + 0; 0 + 2; 0 + 0];
                  ma.ma_mask := [false; false; false; true] |} ∧
        (snd <$> masked_of s' "ratio")
        = Some {| ma.ma_shape := (2, 2)%nat; ma.ma_data := [6 / 4; 3; 0; 0];
                  ma.ma_mask := [false; true; true; true] |}.
Proof. eexists. split_and!; reflexivity. Qed.

(** The spec's lattice: 376 by 128 cells for the notebook's bins. *)
Example shape_of_notebook_bins :
  shape_of_bins ((-10, 37, 0.125), (30, 46, 0.125)) = (376, 128)%nat.
Proof. reflexivity. Qed.

(** A missing file aborts the run at the first load. *)
Example missing_file_aborts :
  main (initial ∅) = Raise (FileNotFoundError anticyclonic_zarr).
Proof. reflexivity. Qed.

(** A dataset whose period is a single instant stops at the factor. *)
Example degenerate_period_raises :
  main (initial {[ anticyclonic_zarr := {| obs_records := []; obs_period := (5, 5) |};
                   cyclonic_zarr := sample.cyclonic ]}) = Raise ZeroDivisionError.
Proof. reflexivity. Qed.

(** ** The run of the notebook, stage by stage *)

Lemma denominator_nonzero (t0 t1 : Q) : ¬ t1 == t0 → ¬ 0.125 ^ 2 * (t1 - t0) == 0.
Proof.
  intros H E. apply H. apply Qmult_integral in E as [E | E]; [discriminate |].
  lra.
Qed.

Section stages.
Context (fs : gmap string observations) (oa oc : observations).
Hypothesis Ha : fs !! anticyclonic_zarr = Some oa.
Hypothesis Hc : fs !! cyclonic_zarr = Some oc.
Hypothesis Hp : ¬ (obs_period oa).2 == (obs_period oa).1.

Lemma load_atlases_run : load_atlases (initial fs) = Ok tt (trace.opened fs oa oc).
Proof using Ha Hc. run. reflexivity. Qed.

Lemma parameters_run : parameters (trace.opened fs oa oc) = Ok tt (trace.loaded fs oa oc).
Proof using Hp.
  pose proof (denominator_nonzero _ _ Hp) as Hd.
  unfold trace.opened. run. reflexivity.
Qed.

Lemma cell4_run : cell4 (initial fs) = Ok tt (trace.loaded fs oa oc).
Proof using Ha Hc Hp.
  unfold cell4. rewrite (bind_Ok _ _ _ _ _ load_atlases_run). apply parameters_run.
Qed.

Lemma counts_run :
  (make_figure ;;; count_and_display) (trace.loaded fs oa oc) = Ok tt (trace.counted fs oa oc).
Proof.
  unfold trace.loaded. run. reflexivity.
Qed.

Lemma compositor_counted :
  compositor (trace.counted fs oa oc) = Ok tt (trace.composed fs oa oc).
Proof.
  unfold trace.counted, trace.composed.
  pose proof (counts_shape oa) as HA. pose proof (counts_shape oc) as HC.
  revert HA HC. generalize (trace.counts oa) (trace.counts oc). intros A C HA HC.
  run. reflexivity.
Qed.

Lemma render_run :
  (show_all ;;; show_ratio ;;; format_panels) (trace.composed fs oa oc)
  = Ok tt (trace.final fs oa oc).
Proof.
  unfold trace.composed, trace.final.
  pose proof (counts_shape oa) as HA. pose proof (counts_shape oc) as HC.
  revert HA HC. generalize (trace.counts oa) (trace.counts oc). intros A C HA HC.
  run. reflexivity.
Qed.

Lemma cell6_run : cell6 (trace.loaded fs oa oc) = Ok tt (trace.final fs oa oc).
Proof using Type.
  unfold cell6.
  rewrite (seq_assoc_Ok _ _ _ _ _ _ counts_run).
  rewrite (bind_Ok _ _ _ _ _ compositor_counted).
  apply render_run.
Qed.

Lemma main_run : main (initial fs) = Ok tt (trace.final fs oa oc).
Proof using Ha Hc Hp. unfold main. rewrite (bind_Ok _ _ _ _ _ cell4_run). apply cell6_run. Qed.

End stages.

(** ** The compositor on any two count arrays *)

Lemma count_of_inv s g l x :
  count_of s g = Some (l, x) →
  ∃ lg d, globals s !! g = Some (VRef lg) ∧ heap s !! lg = Some (OGrid d) ∧
          vars d !! "count" = Some l ∧ heap s !! l = Some (OMasked x).
Proof.
  unfold count_of. intros H.
  destruct (globals s !! g) as [[| lg | | |]|] eqn:Hg; try discriminate.
  destruct (heap s !! lg) as [[| d | | | | | |]|] eqn:Hlg; try discriminate.
  destruct (vars d !! "count") as [l'|] eqn:Hv; try discriminate.
  destruct (heap s !! l') as [[]|] eqn:Hl; try discriminate.
  inversion H; subst. eauto 10.
Qed.

Lemma count_of_intro s g lg d l x :
  globals s !! g = Some (VRef lg) → heap s !! lg = Some (OGrid d) →
  vars d !! "count" = Some l → heap s !! l = Some (OMasked x) →
  count_of s g = Some (l, x).
Proof. intros Hg Hlg Hv Hl. unfold count_of. by rewrite Hg, Hlg, Hv, Hl. Qed.

Lemma masked_of_intro s n l x :
  globals s !! n = Some (VRef l) → heap s !! l = Some (OMasked x) →
  masked_of s n = Some (l, x).
Proof. intros Hg Hl. unfold masked_of. by rewrite Hg, Hl. Qed.

Section compositor.
Context (s : state) (la lc : loc) (A C : ma.marray).
Hypothesis Hga : count_of s "g_a" = Some (la, A).
Hypothesis Hgc : count_of s "g_c" = Some (lc, C).
Hypothesis Hne : la ≠ lc.
Hypothesis Hsh : ma.ma_shape C = ma.ma_shape A.

Lemma compute_ratio_run :
  ∃ s', compute_ratio s = Ok tt s' ∧
        masked_of s' "ratio" = Some (length (heap s), quotient C A) ∧
        count_of s' "g_c" = Some (lc, C) ∧ count_of s' "g_a" = Some (la, A).
Proof using Hga Hgc Hsh.
  clear Hne.
  destruct (count_of_inv _ _ _ _ Hga) as (lga & da & Ha & Hlga & Hva & Hla).
  destruct (count_of_inv _ _ _ _ Hgc) as (lgc & dc & Hc & Hlgc & Hvc & Hlc).
  pose proof (lookup_lt_Some _ _ _ Hlga). pose proof (lookup_lt_Some _ _ _ Hla).
  pose proof (lookup_lt_Some _ _ _ Hlgc). pose proof (lookup_lt_Some _ _ _ Hlc).
  eexists. split; [autounfold with nb; repeat step|].
  split; [eapply masked_of_intro; side|].
  split; eapply count_of_intro; side.
Qed.

Lemma compositor_run :
  ∃ s', compositor s = Ok tt s' ∧
        count_of s' "g_c" = Some (lc, combined C A) ∧
        count_of s' "g_a" = Some (la, A) ∧
        masked_of s' "ratio" = Some (length (heap s), quotient C A) ∧
        length (heap s) ≠ lc.
Proof using Hga Hgc Hne Hsh.
  destruct (count_of_inv _ _ _ _ Hga) as (lga & da & Ha & Hlga & Hva & Hla).
  destruct (count_of_inv _ _ _ _ Hgc) as (lgc & dc & Hc & Hlgc & Hvc & Hlc).
  pose proof (lookup_lt_Some _ _ _ Hlga). pose proof (lookup_lt_Some _ _ _ Hla).
  pose proof (lookup_lt_Some _ _ _ Hlgc). pose proof (lookup_lt_Some _ _ _ Hlc).
  assert (lgc ≠ lc) by congruence. assert (lga ≠ lc) by congruence.
  assert (lgc ≠ la) by congruence.
  eexists. split; [autounfold with nb; repeat step|].
  split; [eapply count_of_intro; side|].
  split; [eapply count_of_intro; side|].
  split; [eapply masked_of_intro; side|lia].
Qed.

End compositor.

(** ** Cell by cell *)

Section cells.
Context (c a : ma.marray) (k : nat) (vc va : Q) (mc ma : bool).
Hypothesis Hvc : ma.ma_data c !! k = Some vc.
Hypothesis Hmc : ma.ma_mask c !! k = Some mc.
Hypothesis Hva : ma.ma_data a !! k = Some va.
Hypothesis Hma : ma.ma_mask a !! k = Some ma.

Lemma quotient_data :
  ma.ma_data (quotient c a) !! k = Some (ma.div_data vc va mc ma).
Proof using Hvc Hmc Hva Hma.
  cbn [quotient ma.ma_data]. unfold ma.zip_with4.
  rewrite !lookup_zip_with, Hvc, Hva, Hmc, Hma. done.
Qed.

Lemma quotient_mask :
  ma.ma_mask (quotient c a) !! k = Some (ma.div_mask vc va mc ma).
Proof using Hvc Hmc Hva Hma.
  cbn [quotient ma.ma_mask]. unfold ma.zip_with4.
  rewrite !lookup_zip_with, Hvc, Hva, Hmc, Hma. done.
Qed.

Lemma combined_data :
  ma.ma_data (combined c a) !! k
  = Some ((if mc then 0 else vc) + (if ma then 0 else va)).
Proof using Hvc Hmc Hva Hma.
  cbn [combined ma.ma_data].
  rewrite !lookup_zip_with, Hvc, Hva, Hmc, Hma. by destruct mc, ma.
Qed.

Lemma combined_mask : ma.ma_mask (combined c a) !! k = Some (mc && ma).
Proof using Hmc Hma.
  cbn [combined ma.ma_mask]. by rewrite lookup_zip_with, Hmc, Hma.
Qed.

End cells.

Lemma div_mask_nonzero (vc va : Q) : ¬ va == 0 → ma.div_mask vc va false false = false.
Proof.
  intros H. unfold ma.div_mask, ma.domain_safe_divide.
  destruct (Qeq_bool va 0) eqn:E; [|done]. by apply Qeq_bool_iff in E.
Qed.

Lemma div_mask_zero (vc va : Q) mc ma : va == 0 → ma.div_mask vc va mc ma = true.
Proof.
  intros H. unfold ma.div_mask, ma.domain_safe_divide.
  by rewrite (proj2 (Qeq_bool_iff va 0) H).
Qed.

(** ** The compositor *)

(** C1. After the compositor, the mask of the combined count grid (the
    "count" array of [g_c]) is the elementwise AND of the original cyclonic
    mask and the anticyclonic mask: a cell is masked in the combined grid if
    and only if it was masked in both inputs.  The anticyclonic grid is as
    before. *)
Theorem compositor_mask_is_and (s : state) (la lc : loc) (A C : ma.marray) :
  count_of s "g_a" = Some (la, A) →
  count_of s "g_c" = Some (lc, C) →
  la ≠ lc →
  ma.ma_shape C = ma.ma_shape A →
  ∃ s' X,
    compositor s = Ok tt s' ∧
    count_of s' "g_c" = Some (lc, X) ∧
    count_of s' "g_a" = Some (la, A) ∧
    ma.ma_mask X = zip_with andb (ma.ma_mask C) (ma.ma_mask A) ∧
    ∀ k mc ma,
      ma.ma_mask C !! k = Some mc → ma.ma_mask A !! k = Some ma →
      (ma.ma_mask X !! k = Some true ↔ mc = true ∧ ma = true).
Proof.
  intros Hga Hgc Hne Hsh.
  destruct (compositor_run s la lc A C Hga Hgc Hne Hsh) as (s' & Hrun & Hc & Ha & _).
  exists s', (combined C A). split_and!; try done.
  intros k mc ma Hmc Hma. rewrite (combined_mask C A k mc ma) by done.
  destruct mc, ma; cbn; intuition congruence.
Qed.

Lemma compositor_mask_is_and_witness :
  ∃ s' X,
    compositor (sample.two_grids sample.count_a sample.count_c) = Ok tt s' ∧
    count_of s' "g_c" = Some (2%nat, X) ∧
    count_of s' "g_a" = Some (0%nat, sample.count_a) ∧
    ma.ma_mask X = zip_with andb (ma.ma_mask sample.count_c) (ma.ma_mask sample.count_a) ∧
    ∀ k mc ma,
      ma.ma_mask sample.count_c !! k = Some mc → ma.ma_mask sample.count_a !! k = Some ma →
      (ma.ma_mask X !! k = Some true ↔ mc = true ∧ ma = true).
Proof.
  apply (compositor_mask_is_and (sample.two_grids sample.count_a sample.count_c)
           0%nat 2%nat sample.count_a sample.count_c);
    [reflexivity | reflexivity | lia | reflexivity].
Defined.

(** C2. At every cell unmasked in the cyclonic input, the combined grid
    holds the cyclonic count plus the anticyclonic count, a masked
    anticyclonic cell counting for zero; the cell is unmasked in the
    combined grid. *)
Theorem compositor_sums_counts (s : state) (la lc : loc) (A C : ma.marray)
    (k : nat) (vc va : Q) (ma : bool) :
  count_of s "g_a" = Some (la, A) →
  count_of s "g_c" = Some (lc, C) →
  la ≠ lc →
  ma.ma_shape C = ma.ma_shape A →
  ma.ma_data C !! k = Some vc → ma.ma_mask C !! k = Some false →
  ma.ma_data A !! k = Some va → ma.ma_mask A !! k = Some ma →
  ∃ s' X,
    compositor s = Ok tt s' ∧
    count_of s' "g_c" = Some (lc, X) ∧
    ma.ma_data X !! k = Some (vc + (if ma then 0 else va)) ∧
    ma.ma_mask X !! k = Some false.
Proof.
  intros Hga Hgc Hne Hsh Hvc Hmc Hva Hma.
  destruct (compositor_run s la lc A C Hga Hgc Hne Hsh) as (s' & Hrun & Hc & _).
  exists s', (combined C A). split_and!; try done.
  - by rewrite (combined_data C A k vc va false ma).
  - by rewrite (combined_mask C A k false ma).
Qed.

Lemma compositor_sums_counts_witness :
  ∃ s' X,
    compositor (sample.two_grids sample.count_a sample.count_c) = Ok tt s' ∧
    count_of s' "g_c" = Some (2%nat, X) ∧
    ma.ma_data X !! 1%nat = Some (3 + (if true then 0 else 0)) ∧
    ma.ma_mask X !! 1%nat = Some false.
Proof.
  apply (compositor_sums_counts (sample.two_grids sample.count_a sample.count_c)
           0%nat 2%nat sample.count_a sample.count_c 1%nat 3 0 true);
    [reflexivity | reflexivity | lia | reflexivity
    | reflexivity | reflexivity | reflexivity | reflexivity].
Defined.

(** C3. At every cell where both counts are unmasked and the anticyclonic
    count is nonzero, the ratio grid holds the original cyclonic count
    divided by the anticyclonic count, unmasked, also once the compositor
    has overwritten the cyclonic array in place with the combined count:
    the ratio is an array of its own. *)
Theorem ratio_keeps_original_quotient (s : state) (la lc : loc) (A C : ma.marray)
    (k : nat) (vc va : Q) :
  count_of s "g_a" = Some (la, A) →
  count_of s "g_c" = Some (lc, C) →
  la ≠ lc →
  ma.ma_shape C = ma.ma_shape A →
  ma.ma_data C !! k = Some vc → ma.ma_mask C !! k = Some false →
  ma.ma_data A !! k = Some va → ma.ma_mask A !! k = Some false →
  ¬ va == 0 →
  ∃ s' lr R X,
    compositor s = Ok tt s' ∧
    masked_of s' "ratio" = Some (lr, R) ∧
    ma.ma_data R !! k = Some (vc / va) ∧
    ma.ma_mask R !! k = Some false ∧
    count_of s' "g_c" = Some (lc, X) ∧
    lr ≠ lc ∧
    ma.ma_data X !! k = Some (vc + va).
Proof.
  intros Hga Hgc Hne Hsh Hvc Hmc Hva Hma Hnz.
  destruct (compositor_run s la lc A C Hga Hgc Hne Hsh) as (s' & Hrun & Hc & _ & Hr & Hlr).
  exists s', (length (heap s)), (quotient C A), (combined C A).
  split_and!; try done.
  - rewrite (quotient_data C A k vc va false false) by done.
    unfold ma.div_data. by rewrite div_mask_nonzero.
  - rewrite (quotient_mask C A k vc va false false) by done.
    by rewrite div_mask_nonzero.
  - by rewrite (combined_data C A k vc va false false).
Qed.

Lemma ratio_keeps_original_quotient_witness :
  ∃ s' lr R X,
    compositor (sample.two_grids sample.count_a sample.count_c) = Ok tt s' ∧
    masked_of s' "ratio" = Some (lr, R) ∧
    ma.ma_data R !! 0%nat = Some (6 / 4) ∧
    ma.ma_mask R !! 0%nat = Some false ∧
    count_of s' "g_c" = Some (2%nat, X) ∧
    lr ≠ 2%nat ∧
    ma.ma_data X !! 0%nat = Some (6 + 4).
Proof.
  apply (ratio_keeps_original_quotient (sample.two_grids sample.count_a sample.count_c)
           0%nat 2%nat sample.count_a sample.count_c 0%nat 6 4);
    [reflexivity | reflexivity | lia | reflexivity
    | reflexivity | reflexivity | reflexivity | reflexivity
    | intros H; vm_compute in H; discriminate H].
Defined.

(** C4, as the code has it.  A zero anticyclonic count raises nothing in
    the ratio computation: the statement completes, the ratio is masked at
    every such cell, and the notebook goes on with the next statement. *)
Theorem zero_divisor_is_masked (s : state) (la lc : loc) (A C : ma.marray) :
  count_of s "g_a" = Some (la, A) →
  count_of s "g_c" = Some (lc, C) →
  ma.ma_shape C = ma.ma_shape A →
  ∃ s' lr R,
    compute_ratio s = Ok tt s' ∧
    ¬ raises compute_ratio s ∧
    masked_of s' "ratio" = Some (lr, R) ∧
    ∀ k vc va mc ma,
      ma.ma_data C !! k = Some vc → ma.ma_mask C !! k = Some mc →
      ma.ma_data A !! k = Some va → ma.ma_mask A !! k = Some ma →
      va == 0 →
      ma.ma_mask R !! k = Some true.
Proof.
  intros Hga Hgc Hsh.
  destruct (compute_ratio_run s la lc A C Hga Hgc Hsh) as (s' & Hrun & Hr & _).
  exists s', (length (heap s)), (quotient C A). split_and!; try done.
  - intros [e He]. congruence.
  - intros k vc va mc ma Hvc Hmc Hva Hma Hz.
    rewrite (quotient_mask C A k vc va mc ma) by done. by rewrite div_mask_zero.
Qed.

Lemma zero_divisor_is_masked_witness :
  ∃ s' lr R,
    compute_ratio (sample.two_grids sample.zero_a sample.one_c) = Ok tt s' ∧
    ¬ raises compute_ratio (sample.two_grids sample.zero_a sample.one_c) ∧
    masked_of s' "ratio" = Some (lr, R) ∧
    ∀ k vc va mc ma,
      ma.ma_data sample.one_c !! k = Some vc → ma.ma_mask sample.one_c !! k = Some mc →
      ma.ma_data sample.zero_a !! k = Some va → ma.ma_mask sample.zero_a !! k = Some ma →
      va == 0 →
      ma.ma_mask R !! k = Some true.
Proof.
  apply (zero_divisor_is_masked (sample.two_grids sample.zero_a sample.one_c)
           0%nat 2%nat sample.zero_a sample.one_c);
    [reflexivity | reflexivity | reflexivity].
Defined.

(** C4, as stated, fails.  With a zero anticyclonic count at an unmasked
    cell (cell 0 of [sample.zero_a], the cyclonic cell unmasked too), the
    ratio statement does not raise: it returns, and so does the whole
    compositor after it. *)
Lemma zero_divisor_does_not_halt :
  ma.ma_data sample.zero_a !! 0%nat = Some 0 ∧
  ma.ma_mask sample.zero_a !! 0%nat = Some false ∧
  ma.ma_mask sample.one_c !! 0%nat = Some false ∧
  ¬ raises compute_ratio (sample.two_grids sample.zero_a sample.one_c) ∧
  ¬ raises compositor (sample.two_grids sample.zero_a sample.one_c) ∧
  ∃ s', compute_ratio (sample.two_grids sample.zero_a sample.one_c) = Ok tt s' ∧
        masked_of s' "ratio"
        = Some (4%nat, {| ma.ma_shape := (1, 2)%nat; ma.ma_data := [1; 1 / 2];
                          ma.ma_mask := [true; false] |}).
Proof.
  split_and!; try reflexivity.
  - intros [e He]. vm_compute in He. discriminate He.
  - intros [e He]. vm_compute in He. discriminate He.
  - eexists. split; reflexivity.
Qed.

(** ** The Binner's grids *)

Lemma length_concat_map {X Y Z} (f : X → Y → Z) (l1 : list X) (l2 : list Y) :
  length (concat (map (λ i, map (f i) l2) l1)) = (length l1 * length l2)%nat.
Proof.
  induction l1 as [|x l1 IH]; [done|].
  cbn [map concat length]. rewrite length_app, length_map, IH. lia.
Qed.

Lemma histogram2d_length recs b :
  length (histogram2d recs b) = ma.ncells (shape_of_bins b).
Proof.
  unfold histogram2d, ma.ncells, shape_of_bins.
  by rewrite length_concat_map, !length_seq.
Qed.

Lemma count_array_wf recs b : ma.wf (count_array recs b).
Proof.
  unfold ma.wf, count_array. cbn [ma.ma_data ma.ma_mask ma.ma_shape].
  by rewrite !length_map, histogram2d_length.
Qed.

Lemma mul_scalar_data (x : ma.marray) (f : Q) (k : nat) (v : Q) :
  ma.ma_data x !! k = Some v → ma.ma_mask x !! k = Some false →
  ma.ma_data (ma.mul_scalar x f) !! k = Some (v * f).
Proof.
  intros Hv Hm. cbn [ma.mul_scalar ma.ma_data]. by rewrite lookup_zip_with, Hv, Hm.
Qed.

Lemma mul_scalar_cell (x : ma.marray) (f : Q) (k : nat) (v : Q) :
  ma.ma_data x !! k = Some v → ma.ma_mask x !! k = Some false →
  ma.ma_data (ma.mul_scalar x f) !! k = Some (v * f) ∧
  ma.ma_mask (ma.mul_scalar x f) !! k = Some false.
Proof. intros Hv Hm. split; [by apply mul_scalar_data | exact Hm]. Qed.

Lemma lookup_concat_map {X Y Z} (f : X → Y → Z) (l1 : list X) (l2 : list Y)
    (i j : nat) (x : X) (y : Y) :
  l1 !! i = Some x → l2 !! j = Some y →
  concat (map (λ a, map (f a) l2) l1) !! (i * length l2 + j)%nat = Some (f x y).
Proof.
  intros Hx Hy. revert i Hx. induction l1 as [|a l1 IH]; intros i Hx; [done|].
  cbn [map concat]. destruct i as [|i].
  - injection Hx as ->. cbn [Nat.mul Nat.add].
    rewrite lookup_app_l by (rewrite length_map; by eapply lookup_lt_Some).
    change (map (f x) l2) with (f x <$> l2). by rewrite list_lookup_fmap, Hy.
  - rewrite lookup_app_r by (rewrite length_map; lia).
    rewrite length_map.
    replace (S i * length l2 + j - length l2)%nat with (i * length l2 + j)%nat by lia.
    by apply IH.
Qed.

(** A cell of the count array: the number of centers in it, masked when
    there is none. *)
Lemma count_array_cell (recs : list eddy) (b : bins) (i j : nat) :
  (i < nbins b.1)%nat → (j < nbins b.2)%nat →
  ma.ma_data (count_array recs b) !! (i * nbins b.2 + j)%nat
  = Some (inject_Z (Z.of_nat (centers_in_cell recs b i j))) ∧
  ma.ma_mask (count_array recs b) !! (i * nbins b.2 + j)%nat
  = Some (bool_decide (centers_in_cell recs b i j = 0%nat)).
Proof.
  intros Hi Hj.
  assert (histogram2d recs b !! (i * nbins b.2 + j)%nat = Some (centers_in_cell recs b i j))
    as Hh.
  { pose proof (lookup_concat_map
      (λ i j, length (filter (λ e, in_bin b.1 i (lon e) && in_bin b.2 j (lat e)) recs))
      (seq 0 (nbins b.1)) (seq 0 (nbins b.2)) i j i j) as H.
    rewrite length_seq in H. apply H; by apply lookup_seq_lt. }
  unfold count_array. cbn [ma.ma_data ma.ma_mask].
  change (map ?f ?l) with (f <$> l). by rewrite !list_lookup_fmap, Hh.
Qed.

(** ** The whole notebook *)

Section whole.
Context (fs : gmap string observations) (oa oc : observations).
Hypothesis Ha : fs !! anticyclonic_zarr = Some oa.
Hypothesis Hc : fs !! cyclonic_zarr = Some oc.
Hypothesis Hp : ¬ (obs_period oa).2 == (obs_period oa).1.

Lemma counted_run :
  (cell4 ;;; make_figure ;;; count_and_display) (initial fs)
  = Ok tt (trace.counted fs oa oc).
Proof using Ha Hc Hp.
  rewrite (bind_Ok _ _ _ _ _ (cell4_run fs oa oc Ha Hc Hp)). apply counts_run.
Qed.

End whole.

(** C5, as amended.  The Binner's grid is not normalised: right after the
    two counts, the "count" arrays of [g_a] and [g_c] hold at every cell the
    number of eddy centers in it.  The normalisation by cell area and time
    span is applied on display: [kwargs_pcolormesh] carries the factor
    1 / (step^2 * (t1 - t0)), where [step] is the step of both bin axes and
    (t0, t1) the period read from [a], and each count panel shows, at every
    unmasked cell, the count times that factor.  The arrays of the grids
    are left as they were. *)
Theorem count_display_is_normalised (fs : gmap string observations) (oa oc : observations) :
  fs !! anticyclonic_zarr = Some oa →
  fs !! cyclonic_zarr = Some oc →
  ¬ (obs_period oa).2 == (obs_period oa).1 →
  ∃ s' step kw f A C m_a m_c,
    (cell4 ;;; make_figure ;;; count_and_display) (initial fs) = Ok tt s' ∧
    globals s' !! "step" = Some (VNum step) ∧
    globals s' !! "bins" = Some (VBins ((-10, 37, step), (30, 46, step))) ∧
    globals s' !! "kwargs_pcolormesh" = Some (VKwargs kw) ∧
    kw_factor kw = Some f ∧
    f = 1 / (step ^ 2 * ((obs_period oa).2 - (obs_period oa).1)) ∧
    count_of s' "g_a" = Some (7%nat, A) ∧
    count_of s' "g_c" = Some (10%nat, C) ∧
    (∀ i j, (i < 376)%nat → (j < 128)%nat →
       ma.ma_data A !! (i * 128 + j)%nat
       = Some (inject_Z (Z.of_nat
           (centers_in_cell (obs_records oa) ((-10, 37, step), (30, 46, step)) i j))) ∧
       ma.ma_data C !! (i * 128 + j)%nat
       = Some (inject_Z (Z.of_nat
           (centers_in_cell (obs_records oc) ((-10, 37, step), (30, 46, step)) i j)))) ∧
    drawn s' "ax_a" = Some [m_a] ∧
    drawn s' "ax_c" = Some [m_c] ∧
    (∀ k n, ma.ma_data A !! k = Some n → ma.ma_mask A !! k = Some false →
            ma.ma_data (mesh_values m_a) !! k = Some (n * f)) ∧
    (∀ k n, ma.ma_data C !! k = Some n → ma.ma_mask C !! k = Some false →
            ma.ma_data (mesh_values m_c) !! k = Some (n * f)).
Proof.
  intros Ha Hc Hp.
  exists (trace.counted fs oa oc), 0.125, (trace.kwargs_pcolormesh oa), (trace.factor oa),
    (trace.counts oa), (trace.counts oc),
    {| mesh_values := ma.mul_scalar (trace.counts oa) (trace.factor oa);
       mesh_cmap := Some "terrain_r"%string; mesh_vmin := Some 0; mesh_vmax := Some 2;
       mesh_norm := Linear |},
    {| mesh_values := ma.mul_scalar (trace.counts oc) (trace.factor oa);
       mesh_cmap := Some "terrain_r"%string; mesh_vmin := Some 0; mesh_vmax := Some 2;
       mesh_norm := Linear |}.
  split; [by apply counted_run|].
  split_and!; try reflexivity.
  - intros i j Hi Hj. split.
    + by apply (count_array_cell (obs_records oa) trace.the_bins i j).
    + by apply (count_array_cell (obs_records oc) trace.the_bins i j).
  - intros k n Hn Hm. cbn [mesh_values]. exact (mul_scalar_data _ _ _ _ Hn Hm).
  - intros k n Hn Hm. cbn [mesh_values]. exact (mul_scalar_data _ _ _ _ Hn Hm).
Qed.

Lemma count_display_is_normalised_witness :
  ∃ s' step kw f A C m_a m_c,
    (cell4 ;;; make_figure ;;; count_and_display) (initial sample.disk) = Ok tt s' ∧
    globals s' !! "step" = Some (VNum step) ∧
    globals s' !! "bins" = Some (VBins ((-10, 37, step), (30, 46, step))) ∧
    globals s' !! "kwargs_pcolormesh" = Some (VKwargs kw) ∧
    kw_factor kw = Some f ∧
    f = 1 / (step ^ 2 * ((obs_period sample.anticyclonic).2 - (obs_period sample.anticyclonic).1)) ∧
    count_of s' "g_a" = Some (7%nat, A) ∧
    count_of s' "g_c" = Some (10%nat, C) ∧
    (∀ i j, (i < 376)%nat → (j < 128)%nat →
       ma.ma_data A !! (i * 128 + j)%nat
       = Some (inject_Z (Z.of_nat
           (centers_in_cell (obs_records sample.anticyclonic) ((-10, 37, step), (30, 46, step)) i j))) ∧
       ma.ma_data C !! (i * 128 + j)%nat
       = Some (inject_Z (Z.of_nat
           (centers_in_cell (obs_records sample.cyclonic) ((-10, 37, step), (30, 46, step)) i j)))) ∧
    drawn s' "ax_a" = Some [m_a] ∧
    drawn s' "ax_c" = Some [m_c] ∧
    (∀ k n, ma.ma_data A !! k = Some n → ma.ma_mask A !! k = Some false →
            ma.ma_data (mesh_values m_a) !! k = Some (n * f)) ∧
    (∀ k n, ma.ma_data C !! k = Some n → ma.ma_mask C !! k = Some false →
            ma.ma_data (mesh_values m_c) !! k = Some (n * f)).
Proof.
  apply (count_display_is_normalised sample.disk sample.anticyclonic sample.cyclonic);
    [reflexivity | reflexivity | intros H; vm_compute in H; discriminate H].
Defined.

(** C5, as stated, fails.  In the atlas [sample.anticyclonic] one center
    lies in cell (120, 80) of the lattice, the one at longitude 5 and
    latitude 40.  The grid the Binner returns holds 1 there, the count
    itself, and not the count times the factor 1 / (step^2 * (t1 - t0)),
    which is 64 / 9495 for the period of that atlas. *)
Lemma binner_grid_is_not_normalised :
  ∃ s' A,
    (cell4 ;;; make_figure ;;; count_and_display) (initial sample.disk) = Ok tt s' ∧
    count_of s' "g_a" = Some (7%nat, A) ∧
    centers_in_cell (obs_records sample.anticyclonic)
      ((-10, 37, 0.125), (30, 46, 0.125)) 120 80 = 1%nat ∧
    ma.ma_data A !! (120 * 128 + 80)%nat = Some 1 ∧
    ma.ma_mask A !! (120 * 128 + 80)%nat = Some false ∧
    1 / (0.125 ^ 2 * ((obs_period sample.anticyclonic).2
                      - (obs_period sample.anticyclonic).1)) == 64 # 9495 ∧
    ¬ 1 == 1 * (1 / (0.125 ^ 2 * ((obs_period sample.anticyclonic).2
                                  - (obs_period sample.anticyclonic).1))).
Proof.
  exists (trace.counted sample.disk sample.anticyclonic sample.cyclonic),
    (trace.counts sample.anticyclonic).
  split.
  { apply counted_run; [reflexivity | reflexivity |].
    intros H; vm_compute in H; discriminate H. }
  destruct (count_array_cell (obs_records sample.anticyclonic) trace.the_bins 120 80)
    as [Hd Hm]; [vm_compute; lia | vm_compute; lia |].
  split_and!.
  - reflexivity.
  - vm_compute. reflexivity.
  - exact Hd.
  - exact Hm.
  - vm_compute. reflexivity.
  - intros H. vm_compute in H. discriminate H.
Qed.

(** C6.  In every run the anticyclonic, the cyclonic and the combined count
    grids have the same shape and the same bin edges on both axes. *)
Theorem grids_share_shape_and_edges (fs : gmap string observations) (oa oc : observations) :
  fs !! anticyclonic_zarr = Some oa →
  fs !! cyclonic_zarr = Some oc →
  ¬ (obs_period oa).2 == (obs_period oa).1 →
  ∃ s1 s2 A C X e,
    (cell4 ;;; make_figure ;;; count_and_display) (initial fs) = Ok tt s1 ∧
    compositor s1 = Ok tt s2 ∧
    count_of s1 "g_a" = Some (7%nat, A) ∧
    count_of s1 "g_c" = Some (10%nat, C) ∧
    count_of s2 "g_a" = Some (7%nat, A) ∧
    count_of s2 "g_c" = Some (10%nat, X) ∧
    ma.ma_shape C = ma.ma_shape A ∧
    ma.ma_shape X = ma.ma_shape A ∧
    bounds_of s1 "g_a" = Some e ∧
    bounds_of s1 "g_c" = Some e ∧
    bounds_of s2 "g_a" = Some e ∧
    bounds_of s2 "g_c" = Some e.
Proof.
  intros Ha Hc Hp.
  exists (trace.counted fs oa oc), (trace.composed fs oa oc),
    (trace.counts oa), (trace.counts oc), (combined (trace.counts oc) (trace.counts oa)),
    (edges trace.the_bins.1, edges trace.the_bins.2).
  split; [by apply counted_run|].
  split; [by apply compositor_counted|].
  split_and!; reflexivity.
Qed.

Lemma grids_share_shape_and_edges_witness :
  ∃ s1 s2 A C X e,
    (cell4 ;;; make_figure ;;; count_and_display) (initial sample.disk) = Ok tt s1 ∧
    compositor s1 = Ok tt s2 ∧
    count_of s1 "g_a" = Some (7%nat, A) ∧
    count_of s1 "g_c" = Some (10%nat, C) ∧
    count_of s2 "g_a" = Some (7%nat, A) ∧
    count_of s2 "g_c" = Some (10%nat, X) ∧
    ma.ma_shape C = ma.ma_shape A ∧
    ma.ma_shape X = ma.ma_shape A ∧
    bounds_of s1 "g_a" = Some e ∧
    bounds_of s1 "g_c" = Some e ∧
    bounds_of s2 "g_a" = Some e ∧
    bounds_of s2 "g_c" = Some e.
Proof.
  apply (grids_share_shape_and_edges sample.disk sample.anticyclonic sample.cyclonic);
    [reflexivity | reflexivity | intros H; vm_compute in H; discriminate H].
Defined.

(** C7.  With longitude bins from -10 to 37 and latitude bins from 30 to 46,
    both of step 0.125, the two count grids have shape (376, 128), which is
    ((37 - (-10)) / 0.125, (46 - 30) / 0.125) in exact arithmetic, and their
    buffers hold that many cells. *)
Theorem count_grids_are_376_by_128 (fs : gmap string observations) (oa oc : observations) :
  fs !! anticyclonic_zarr = Some oa →
  fs !! cyclonic_zarr = Some oc →
  ¬ (obs_period oa).2 == (obs_period oa).1 →
  ∃ s1 A C,
    (cell4 ;;; make_figure ;;; count_and_display) (initial fs) = Ok tt s1 ∧
    globals s1 !! "bins" = Some (VBins ((-10, 37, 0.125), (30, 46, 0.125))) ∧
    count_of s1 "g_a" = Some (7%nat, A) ∧
    count_of s1 "g_c" = Some (10%nat, C) ∧
    ma.ma_shape A = (376, 128)%nat ∧
    ma.ma_shape C = (376, 128)%nat ∧
    ma.wf A ∧ ma.wf C ∧
    inject_Z 376 == (37 - (-10)) / 0.125 ∧
    inject_Z 128 == (46 - 30) / 0.125.
Proof.
  intros Ha Hc Hp.
  exists (trace.counted fs oa oc), (trace.counts oa), (trace.counts oc).
  split; [by apply counted_run|].
  split_and!; try reflexivity; apply count_array_wf.
Qed.

Lemma count_grids_are_376_by_128_witness :
  ∃ s1 A C,
    (cell4 ;;; make_figure ;;; count_and_display) (initial sample.disk) = Ok tt s1 ∧
    globals s1 !! "bins" = Some (VBins ((-10, 37, 0.125), (30, 46, 0.125))) ∧
    count_of s1 "g_a" = Some (7%nat, A) ∧
    count_of s1 "g_c" = Some (10%nat, C) ∧
    ma.ma_shape A = (376, 128)%nat ∧
    ma.ma_shape C = (376, 128)%nat ∧
    ma.wf A ∧ ma.wf C ∧
    inject_Z 376 == (37 - (-10)) / 0.125 ∧
    inject_Z 128 == (46 - 30) / 0.125.
Proof.
  apply (count_grids_are_376_by_128 sample.disk sample.anticyclonic sample.cyclonic);
    [reflexivity | reflexivity | intros H; vm_compute in H; discriminate H].
Defined.

(** C9.  At the end of the notebook each of the four panels has x limits
    (-6, 36.5), y limits (30, 46), equal aspect and gridlines; each of the
    three count panels shows one mesh on a linear colour scale from 0 to 2,
    and the ratio panel one mesh on a logarithmic scale from 0.1 to 10. *)
Theorem panels_are_configured_alike (fs : gmap string observations) (oa oc : observations) :
  fs !! anticyclonic_zarr = Some oa →
  fs !! cyclonic_zarr = Some oc →
  ¬ (obs_period oa).2 == (obs_period oa).1 →
  ∃ s',
    main (initial fs) = Ok tt s' ∧
    Forall (λ x, ∃ a, axes_of s' x = Some a ∧
                      ax_xlim a = Some (-6, 36.5) ∧ ax_ylim a = Some (30, 46) ∧
                      ax_aspect a = Some "equal"%string ∧ ax_grid a = true)
           ["ax_a"; "ax_c"; "ax_all"; "ax_ratio"]%string ∧
    Forall (λ x, ∃ m, drawn s' x = Some [m] ∧ mesh_norm m = Linear ∧
                      mesh_vmin m = Some 0 ∧ mesh_vmax m = Some 2)
           ["ax_a"; "ax_c"; "ax_all"]%string ∧
    ∃ m, drawn s' "ax_ratio" = Some [m] ∧ mesh_norm m = LogNorm ∧
         mesh_vmin m = Some 0.1 ∧ mesh_vmax m = Some 10.
Proof.
  intros Ha Hc Hp. exists (trace.final fs oa oc).
  split; [by apply main_run|].
  unfold trace.final. generalize (trace.counts oa) (trace.counts oc). intros A C.
  split_and!.
  - repeat constructor; eexists; split_and!; reflexivity.
  - repeat constructor; eexists; split_and!; reflexivity.
  - eexists; split_and!; reflexivity.
Qed.

Lemma panels_are_configured_alike_witness :
  ∃ s',
    main (initial sample.disk) = Ok tt s' ∧
    Forall (λ x, ∃ a, axes_of s' x = Some a ∧
                      ax_xlim a = Some (-6, 36.5) ∧ ax_ylim a = Some (30, 46) ∧
                      ax_aspect a = Some "equal"%string ∧ ax_grid a = true)
           ["ax_a"; "ax_c"; "ax_all"; "ax_ratio"]%string ∧
    Forall (λ x, ∃ m, drawn s' x = Some [m] ∧ mesh_norm m = Linear ∧
                      mesh_vmin m = Some 0 ∧ mesh_vmax m = Some 2)
           ["ax_a"; "ax_c"; "ax_all"]%string ∧
    ∃ m, drawn s' "ax_ratio" = Some [m] ∧ mesh_norm m = LogNorm ∧
         mesh_vmin m = Some 0.1 ∧ mesh_vmax m = Some 10.
Proof.
  apply (panels_are_configured_alike sample.disk sample.anticyclonic sample.cyclonic);
    [reflexivity | reflexivity | intros H; vm_compute in H; discriminate H].
Defined.

(** C10.  The cyclonic and the combined count grids are drawn with the
    factor 1 / (step^2 * (t1 - t0)) in which (t0, t1) is the period of the
    anticyclonic dataset: whatever the cyclonic dataset and its period are,
    the same [kwargs_pcolormesh] is used for the three count panels, and
    the cyclonic and the combined panel show, at every unmasked cell, the
    value of their grid times that factor. *)
Theorem cyclonic_display_uses_anticyclonic_period
    (fs : gmap string observations) (oa oc : observations) :
  fs !! anticyclonic_zarr = Some oa →
  fs !! cyclonic_zarr = Some oc →
  ¬ (obs_period oa).2 == (obs_period oa).1 →
  ∃ s' kw f C X m_c m_all,
    main (initial fs) = Ok tt s' ∧
    f = 1 / (0.125 ^ 2 * ((obs_period oa).2 - (obs_period oa).1)) ∧
    globals s' !! "t0" = Some (VNum (obs_period oa).1) ∧
    globals s' !! "t1" = Some (VNum (obs_period oa).2) ∧
    globals s' !! "kwargs_pcolormesh" = Some (VKwargs kw) ∧
    kw_factor kw = Some f ∧
    C = count_array (obs_records oc) ((-10, 37, 0.125), (30, 46, 0.125)) ∧
    X = combined C (count_array (obs_records oa) ((-10, 37, 0.125), (30, 46, 0.125))) ∧
    drawn s' "ax_c" = Some [m_c] ∧ mesh_values m_c = ma.mul_scalar C f ∧
    drawn s' "ax_all" = Some [m_all] ∧ mesh_values m_all = ma.mul_scalar X f ∧
    (∀ k n, ma.ma_data C !! k = Some n → ma.ma_mask C !! k = Some false →
            ma.ma_data (mesh_values m_c) !! k = Some (n * f) ∧
            ma.ma_mask (mesh_values m_c) !! k = Some false) ∧
    (∀ k n, ma.ma_data X !! k = Some n → ma.ma_mask X !! k = Some false →
            ma.ma_data (mesh_values m_all) !! k = Some (n * f) ∧
            ma.ma_mask (mesh_values m_all) !! k = Some false).
Proof.
  intros Ha Hc Hp.
  exists (trace.final fs oa oc), (trace.kwargs_pcolormesh oa), (trace.factor oa),
    (trace.counts oc), (combined (trace.counts oc) (trace.counts oa)).
  exists {| mesh_values := ma.mul_scalar (trace.counts oc) (trace.factor oa);
            mesh_cmap := Some "terrain_r"%string; mesh_vmin := Some 0; mesh_vmax := Some 2;
            mesh_norm := Linear |},
    {| mesh_values := ma.mul_scalar (combined (trace.counts oc) (trace.counts oa))
                        (trace.factor oa);
       mesh_cmap := Some "terrain_r"%string; mesh_vmin := Some 0; mesh_vmax := Some 2;
       mesh_norm := Linear |}.
  split; [by apply main_run|].
  split_and!; try reflexivity.
  - intros k n Hn Hm. cbn [mesh_values]. exact (mul_scalar_cell _ _ _ _ Hn Hm).
  - intros k n Hn Hm. cbn [mesh_values]. exact (mul_scalar_cell _ _ _ _ Hn Hm).
Qed.

Lemma cyclonic_display_uses_anticyclonic_period_witness :
  ∃ s' kw f C X m_c m_all,
    main (initial sample.disk) = Ok tt s' ∧
    f = 1 / (0.125 ^ 2 * ((obs_period sample.anticyclonic).2
                          - (obs_period sample.anticyclonic).1)) ∧
    globals s' !! "t0" = Some (VNum (obs_period sample.anticyclonic).1) ∧
    globals s' !! "t1" = Some (VNum (obs_period sample.anticyclonic).2) ∧
    globals s' !! "kwargs_pcolormesh" = Some (VKwargs kw) ∧
    kw_factor kw = Some f ∧
    C = count_array (obs_records sample.cyclonic) ((-10, 37, 0.125), (30, 46, 0.125)) ∧
    X = combined C (count_array (obs_records sample.anticyclonic)
                      ((-10, 37, 0.125), (30, 46, 0.125))) ∧
    drawn s' "ax_c" = Some [m_c] ∧ mesh_values m_c = ma.mul_scalar C f ∧
    drawn s' "ax_all" = Some [m_all] ∧ mesh_values m_all = ma.mul_scalar X f ∧
    (∀ k n, ma.ma_data C !! k = Some n → ma.ma_mask C !! k = Some false →
            ma.ma_data (mesh_values m_c) !! k = Some (n * f) ∧
            ma.ma_mask (mesh_values m_c) !! k = Some false) ∧
    (∀ k n, ma.ma_data X !! k = Some n → ma.ma_mask X !! k = Some false →
            ma.ma_data (mesh_values m_all) !! k = Some (n * f) ∧
            ma.ma_mask (mesh_values m_all) !! k = Some false).
Proof.
  apply (cyclonic_display_uses_anticyclonic_period
           sample.disk sample.anticyclonic sample.cyclonic);
    [reflexivity | reflexivity | intros H; vm_compute in H; discriminate H].
Defined.

(** ** The observation sets are only read *)

Section keeps.
Context {A B : Type}.

Lemma keeps_ret (a : A) : keeps_observations (ret a).
Proof. intros s a' s' [= _ <-]. done. Qed.

Lemma keeps_raise (e : exn) : keeps_observations (@raise A e).
Proof. intros s a s' [=]. Qed.

Lemma keeps_bind (m : M A) (k : A → M B) :
  keeps_observations m → (∀ a, keeps_observations (k a)) → keeps_observations (bind m k).
Proof.
  intros Hm Hk s b s'. unfold bind. destruct (m s) as [a s1|] eqn:E; [|done].
  intros H. destruct (Hm _ _ _ E) as (Hl & Hf & Hh).
  destruct (Hk _ _ _ _ H) as (Hl' & Hf' & Hh').
  split_and!; [congruence | congruence | auto].
Qed.

Lemma keeps_of_option (o : option A) (e : exn) : keeps_observations (of_option o e).
Proof. destruct o; [apply keeps_ret | apply keeps_raise]. Qed.

Lemma keeps_of_numpy (r : ma.error + A) : keeps_observations (of_numpy r).
Proof. destruct r; [apply keeps_raise | apply keeps_ret]. Qed.
End keeps.

Create HintDb keeps.
#[local] Hint Resolve keeps_ret keeps_raise keeps_of_option keeps_of_numpy : keeps.

Lemma keeps_append (h : list obj) (o' : list obj) :
  ∀ l' x, h !! l' = Some (OObs x) → (h ++ o') !! l' = Some (OObs x).
Proof. intros l' x Hx. by apply lookup_app_l_Some. Qed.

(** ** Statements that only read *)

Lemma bind_inv {A B} (m : M A) (k : A → M B) s b s' :
  bind m k s = Ok b s' → ∃ a s1, m s = Ok a s1 ∧ k a s1 = Ok b s'.
Proof. unfold bind. destruct (m s) as [a s1|]; [eauto | done]. Qed.

Lemma reads_bind {A B} (m : M A) (k : A → M B) :
  reads m → (∀ a, reads (k a)) → reads (bind m k).
Proof.
  intros Hm Hk s b s' (a & s1 & H1 & H2)%bind_inv.
  apply Hm in H1 as ->. by apply Hk in H2.
Qed.

Lemma reads_ret {A} (a : A) : reads (ret a).
Proof. by intros s a' s' [= _ <-]. Qed.

Lemma reads_raise {A} (e : exn) : reads (@raise A e).
Proof. intros s a s' [=]. Qed.

Lemma reads_of_option {A} (o : option A) (e : exn) : reads (of_option o e).
Proof. destruct o; [apply reads_ret | apply reads_raise]. Qed.

Lemma reads_of_numpy {A} (r : ma.error + A) : reads (of_numpy r).
Proof. destruct r; [apply reads_raise | apply reads_ret]. Qed.

Lemma reads_get_var x : reads (get_var x).
Proof. intros s a s'. unfold get_var. apply reads_of_option. Qed.

Lemma reads_load l : reads (load l).
Proof. intros s a s'. unfold load. apply reads_of_option. Qed.

Create HintDb reads.
#[local] Hint Resolve reads_ret reads_raise reads_of_option reads_of_numpy
  reads_get_var reads_load : reads.

Ltac reader :=
  repeat first [ apply reads_bind; [| intros [] ] | apply reads_bind; [| intros ? ] ];
  auto with reads.

Lemma reads_get_ref x : reads (get_ref x).
Proof. unfold get_ref. reader. Qed.
Lemma reads_get_num x : reads (get_num x).
Proof. unfold get_num. reader. Qed.
Lemma reads_get_bins x : reads (get_bins x).
Proof. unfold get_bins. reader. Qed.
Lemma reads_get_kwargs x : reads (get_kwargs x).
Proof. unfold get_kwargs. reader. Qed.
Lemma reads_load_masked l : reads (load_masked l).
Proof. unfold load_masked. reader. Qed.
Lemma reads_load_grid l : reads (load_grid l).
Proof. unfold load_grid. reader. Qed.
Lemma reads_load_axes l : reads (load_axes l).
Proof. unfold load_axes. reader. Qed.
Lemma reads_load_obs l : reads (load_obs l).
Proof. unfold load_obs. reader. Qed.
#[local] Hint Resolve reads_get_ref reads_get_num reads_get_bins reads_get_kwargs
  reads_load_masked reads_load_grid reads_load_axes reads_load_obs : reads.

Lemma reads_read_bool v : reads (read_bool v).
Proof. destruct v; cbn [read_bool]; reader. Qed.
Lemma reads_period l : reads (period l).
Proof. unfold period. reader. Qed.
Lemma reads_vars_getitem g name : reads (vars_getitem g name).
Proof. unfold vars_getitem. reader. Qed.
Lemma reads_ma_get_mask l : reads (ma_get_mask l).
Proof. unfold ma_get_mask. reader. Qed.
Lemma reads_py_div (a b : Q) : reads (py_div a b).
Proof. unfold py_div. destruct (Qeq_bool b 0); auto with reads. Qed.
#[local] Hint Resolve reads_read_bool reads_period reads_vars_getitem reads_ma_get_mask
  reads_py_div : reads.

Lemma keeps_reads {A} (m : M A) : reads m → keeps_observations m.
Proof. intros H s a s' ->%H. done. Qed.

(** What a successful load tells about the store. *)
Lemma load_inv l s o s' : load l s = Ok o s' → s' = s ∧ heap s !! l = Some o.
Proof. unfold load. destruct (heap s !! l); [|done]. by intros [= -> ->]. Qed.

Lemma load_masked_inv l s x s' :
  load_masked l s = Ok x s' → s' = s ∧ heap s !! l = Some (OMasked x).
Proof.
  intros (o & s1 & [-> Ho]%load_inv & H)%bind_inv.
  destruct o; try discriminate H. by injection H as -> ->.
Qed.

Lemma load_grid_inv l s g s' :
  load_grid l s = Ok g s' → s' = s ∧ heap s !! l = Some (OGrid g).
Proof.
  intros (o & s1 & [-> Ho]%load_inv & H)%bind_inv.
  destruct o; try discriminate H. by injection H as -> ->.
Qed.

Lemma load_axes_inv l s a s' :
  load_axes l s = Ok a s' → s' = s ∧ heap s !! l = Some (OAxes a).
Proof.
  intros (o & s1 & [-> Ho]%load_inv & H)%bind_inv.
  destruct o; try discriminate H. by injection H as -> ->.
Qed.

(** Unwinding a successful run of an operation into its steps. *)
Ltac unwind :=
  repeat match goal with
  | H : bind _ _ _ = Ok _ _ |- _ =>
      let H1 := fresh "R" in apply bind_inv in H as (? & ? & H1 & H)
  | H : load_masked _ _ = Ok _ _ |- _ => apply load_masked_inv in H as [-> ?]
  | H : load_grid _ _ = Ok _ _ |- _ => apply load_grid_inv in H as [-> ?]
  | H : load_axes _ _ = Ok _ _ |- _ => apply load_axes_inv in H as [-> ?]
  | H : load _ _ = Ok _ _ |- _ => apply load_inv in H as [-> ?]
  | H : load_obs _ _ = Ok _ _ |- _ => apply reads_load_obs in H as ->
  | H : read_bool _ _ = Ok _ _ |- _ => apply reads_read_bool in H as ->
  | H : get_ref _ _ = Ok _ _ |- _ => apply reads_get_ref in H as ->
  | H : of_numpy _ _ = Ok _ _ |- _ => apply reads_of_numpy in H as ->
  | H : of_option _ _ _ = Ok _ _ |- _ => apply reads_of_option in H as ->
  | H : alloc _ _ = Ok _ _ |- _ => injection H as <- <-
  | H : store _ _ _ = Ok _ _ |- _ => injection H as <- <-
  | H : ret _ _ = Ok _ _ |- _ => injection H as <- <-
  | H : raise _ _ = Ok _ _ |- _ => discriminate H
  end.

Ltac kept :=
  cbv [set_heap] in *; cbn [heap loads files];
  (split_and!; [done | done |]);
  intros l' o' Hl';
  repeat first
    [ rewrite list_lookup_insert_ne by (intros ?; subst; congruence)
    | apply lookup_app_l_Some ];
  eassumption.

Section keeps_ops.
Implicit Types (l : loc) (x : string).

Lemma keeps_set_var x v : keeps_observations (set_var x v).
Proof. intros s a s' [= _ <-]. done. Qed.

Lemma keeps_alloc o : keeps_observations (alloc o).
Proof. intros s a s' [= _ <-]. split_and!; [done..|]. apply keeps_append. Qed.

Lemma keeps_ma_truediv lx ly : keeps_observations (ma_truediv lx ly).
Proof. intros s a s' H. unfold ma_truediv in H. unwind. kept. Qed.

Lemma keeps_bool_and v1 v2 : keeps_observations (bool_and v1 v2).
Proof. intros s a s' H. unfold bool_and in H. unwind. kept. Qed.

Lemma keeps_ma_setitem lx idx v : keeps_observations (ma_setitem lx idx v).
Proof. intros s a s' H. unfold ma_setitem in H. unwind. kept. Qed.

Lemma keeps_ma_iadd lx ly : keeps_observations (ma_iadd lx ly).
Proof. intros s a s' H. unfold ma_iadd in H. unwind. kept. Qed.

Lemma keeps_ma_set_mask lx m : keeps_observations (ma_set_mask lx m).
Proof. intros s a s' H. unfold ma_set_mask in H. unwind. kept. Qed.

Lemma keeps_vars_setitem g name l : keeps_observations (vars_setitem g name l).
Proof. intros s a s' H. unfold vars_setitem in H. unwind. kept. Qed.

Lemma keeps_grid_count l b i c : keeps_observations (grid_count l b i c).
Proof.
  intros s a s' H. unfold grid_count in H. unwind. kept.
Qed.

Lemma keeps_display lg la kw : keeps_observations (display lg la kw).
Proof.
  intros s a s' H. unfold display in H. unwind. kept.
Qed.

Lemma keeps_add_axes fig rect : keeps_observations (add_axes fig rect).
Proof.
  intros s a s' H. unfold add_axes in H. unwind.
  destruct x; try discriminate H. unwind. kept.
Qed.

Lemma keeps_update_axes l f : keeps_observations (update_axes l f).
Proof. intros s a s' H. unfold update_axes in H. unwind. kept. Qed.

Lemma keeps_plt_colorbar lm cax : keeps_observations (plt_colorbar lm cax).
Proof.
  intros s a s' H. unfold plt_colorbar in H. unwind.
  destruct x; try discriminate H. unwind. kept.
Qed.

Lemma keeps_set_label l t : keeps_observations (set_label l t).
Proof.
  intros s a s' H. unfold set_label in H. unwind.
  destruct x; try discriminate H. unwind. kept.
Qed.

End keeps_ops.

#[local] Hint Resolve keeps_set_var keeps_alloc keeps_ma_truediv keeps_bool_and
  keeps_ma_setitem keeps_ma_iadd keeps_ma_set_mask keeps_vars_setitem keeps_grid_count
  keeps_display keeps_add_axes keeps_update_axes keeps_plt_colorbar keeps_set_label : keeps.

Lemma keeps_for_in x xs body :
  keeps_observations body → keeps_observations (for_in x xs body).
Proof.
  intros Hb. induction xs as [|v xs IH]; cbn [for_in]; [apply keeps_ret|].
  apply keeps_bind; [apply keeps_set_var|intros _].
  apply keeps_bind; [apply Hb|intros _]. apply IH.
Qed.

Ltac keeping :=
  first
    [ solve [auto with keeps]
    | solve [apply keeps_reads; auto with reads]
    | apply keeps_for_in; keeping
    | apply keeps_bind; [keeping | intros ?; keeping] ].

Lemma keeps_parameters : keeps_observations parameters.
Proof. autounfold with nb. keeping. Qed.

Lemma keeps_cell6 : keeps_observations cell6.
Proof. autounfold with nb. keeping. Qed.

(** C8.  The two observation sets are loaded once each, by the first two
    statements, and nothing after that changes them: the parameters and
    cell 6 read no file and leave every observation set of the store as it
    is, in the run of the notebook and from any other state. *)
Theorem observations_are_loaded_once_and_kept
    (fs : gmap string observations) (oa oc : observations) :
  fs !! anticyclonic_zarr = Some oa →
  fs !! cyclonic_zarr = Some oc →
  ¬ (obs_period oa).2 == (obs_period oa).1 →
  ∃ s0 s1 s',
    load_atlases (initial fs) = Ok tt s0 ∧
    parameters s0 = Ok tt s1 ∧
    cell6 s1 = Ok tt s' ∧
    main (initial fs) = Ok tt s' ∧
    loads s0 = [anticyclonic_zarr; cyclonic_zarr] ∧
    obs_of s0 "a" = Some oa ∧ obs_of s0 "c" = Some oc ∧
    loads s1 = loads s0 ∧ obs_of s1 "a" = Some oa ∧ obs_of s1 "c" = Some oc ∧
    loads s' = loads s0 ∧ obs_of s' "a" = Some oa ∧ obs_of s' "c" = Some oc ∧
    keeps_observations parameters ∧
    keeps_observations cell6.
Proof.
  intros Ha Hc Hp.
  exists (trace.opened fs oa oc), (trace.loaded fs oa oc), (trace.final fs oa oc).
  split; [by apply load_atlases_run|].
  split; [by apply parameters_run|].
  split; [by apply cell6_run|].
  split; [by apply main_run|].
  split_and!; try reflexivity.
  - apply keeps_parameters.
  - apply keeps_cell6.
Qed.

Lemma observations_are_loaded_once_and_kept_witness :
  ∃ s0 s1 s',
    load_atlases (initial sample.disk) = Ok tt s0 ∧
    parameters s0 = Ok tt s1 ∧
    cell6 s1 = Ok tt s' ∧
    main (initial sample.disk) = Ok tt s' ∧
    loads s0 = [anticyclonic_zarr; cyclonic_zarr] ∧
    obs_of s0 "a" = Some sample.anticyclonic ∧ obs_of s0 "c" = Some sample.cyclonic ∧
    loads s1 = loads s0 ∧
    obs_of s1 "a" = Some sample.anticyclonic ∧ obs_of s1 "c" = Some sample.cyclonic ∧
    loads s' = loads s0 ∧
    obs_of s' "a" = Some sample.anticyclonic ∧ obs_of s' "c" = Some sample.cyclonic ∧
    keeps_observations parameters ∧
    keeps_observations cell6.
Proof.
  apply (observations_are_loaded_once_and_kept
           sample.disk sample.anticyclonic sample.cyclonic);
    [reflexivity | reflexivity | intros H; vm_compute in H; discriminate H].
Defined.

(** * More of the notebook *)

(** ** What the compositor changes *)

Section compositor_effect.
Context (s : state) (la lc : loc) (A C : ma.marray).
Hypothesis Hga : count_of s "g_a" = Some (la, A).
Hypothesis Hgc : count_of s "g_c" = Some (lc, C).
Hypothesis Hne : la ≠ lc.
Hypothesis Hsh : ma.ma_shape C = ma.ma_shape A.

Lemma compositor_effect :
  ∃ s', compositor s = Ok tt s' ∧
        heap s' !! lc = Some (OMasked (combined C A)) ∧
        heap s' !! length (heap s) = Some (OMasked (quotient C A)) ∧
        heap s' !! S (length (heap s))
        = Some (OBool (ma.ma_shape C) (zip_with andb (ma.ma_mask C) (ma.ma_mask A))) ∧
        length (heap s') = S (S (length (heap s))) ∧
        (∀ l, (l < length (heap s))%nat → l ≠ lc → heap s' !! l = heap s !! l) ∧
        globals s' = <["m" := VRef (S (length (heap s)))]>
                       (<["m_c" := VMaskView lc]>
                          (<["ratio" := VRef (length (heap s))]> (globals s))) ∧
        files s' = files s ∧ loads s' = loads s.
Proof using Hga Hgc Hne Hsh.
  destruct (count_of_inv _ _ _ _ Hga) as (lga & da & Ha & Hlga & Hva & Hla).
  destruct (count_of_inv _ _ _ _ Hgc) as (lgc & dc & Hc & Hlgc & Hvc & Hlc).
  pose proof (lookup_lt_Some _ _ _ Hlga). pose proof (lookup_lt_Some _ _ _ Hla).
  pose proof (lookup_lt_Some _ _ _ Hlgc). pose proof (lookup_lt_Some _ _ _ Hlc).
  assert (lgc ≠ lc) by congruence. assert (lga ≠ lc) by congruence.
  assert (lgc ≠ la) by congruence.
  eexists. split; [autounfold with nb; repeat step|].
  norm_state. split_and!.
  - heap_lookup.
  - heap_lookup.
  - heap_lookup.
  - rewrite !length_insert, !length_app. cbn [length]. lia.
  - intros l Hl Hn. destruct (decide (l = lgc)) as [->|Hg].
    + rewrite list_lookup_insert_ne by done.
      rewrite list_lookup_insert_eq by len_side.
      rewrite Hlgc, insert_id by done. by destruct dc.
    + rewrite !list_lookup_insert_ne by done. by rewrite !lookup_app_l by len_side.
  - rewrite length_app. cbn [length]. by rewrite Nat.add_1_r.
  - done.
  - done.
Qed.
End compositor_effect.

(** X1.  After the compositor a cell of the ratio grid is unmasked exactly
    when both counts are unmasked there and the anticyclonic count is not
    zero; the ratio has the shape of the count grids. *)
Theorem ratio_is_masked_outside_common_support (s : state) (la lc : loc) (A C : ma.marray) :
  count_of s "g_a" = Some (la, A) →
  count_of s "g_c" = Some (lc, C) →
  la ≠ lc →
  ma.ma_shape C = ma.ma_shape A →
  ∃ s' lr R,
    compositor s = Ok tt s' ∧
    masked_of s' "ratio" = Some (lr, R) ∧
    ma.ma_shape R = ma.ma_shape C ∧
    ∀ k vc va mc ma,
      ma.ma_data C !! k = Some vc → ma.ma_mask C !! k = Some mc →
      ma.ma_data A !! k = Some va → ma.ma_mask A !! k = Some ma →
      (ma.ma_mask R !! k = Some false ↔ mc = false ∧ ma = false ∧ ¬ va == 0).
Proof.
  intros Hga Hgc Hne Hsh.
  destruct (compositor_run s la lc A C Hga Hgc Hne Hsh) as (s' & Hrun & _ & _ & Hr & _).
  exists s', (length (heap s)), (quotient C A). split_and!; try done.
  intros k vc va mc ma Hvc Hmc Hva Hma.
  rewrite (quotient_mask C A k vc va mc ma) by done.
  unfold ma.div_mask, ma.domain_safe_divide.
  destruct (Qeq_bool va 0) eqn:E.
  - apply Qeq_bool_iff in E. cbn. split; [done|]. intros (_ & _ & Hn). destruct (Hn E).
  - assert (¬ va == 0) by (intros Hz%Qeq_bool_iff; congruence).
    destruct mc, ma; cbn; intuition congruence.
Qed.

Lemma ratio_is_masked_outside_common_support_witness :
  ∃ s' lr R,
    compositor (sample.two_grids sample.count_a sample.count_c) = Ok tt s' ∧
    masked_of s' "ratio" = Some (lr, R) ∧
    ma.ma_shape R = ma.ma_shape sample.count_c ∧
    ∀ k vc va mc ma,
      ma.ma_data sample.count_c !! k = Some vc → ma.ma_mask sample.count_c !! k = Some mc →
      ma.ma_data sample.count_a !! k = Some va → ma.ma_mask sample.count_a !! k = Some ma →
      (ma.ma_mask R !! k = Some false ↔ mc = false ∧ ma = false ∧ ¬ va == 0).
Proof.
  apply (ratio_is_masked_outside_common_support
           (sample.two_grids sample.count_a sample.count_c)
           0%nat 2%nat sample.count_a sample.count_c);
    [reflexivity | reflexivity | lia | reflexivity].
Defined.

(** X2.  At a cell masked in the cyclonic input the combined grid holds the
    anticyclonic count alone (0 plus it; 0 plus 0 where that one is masked
    too), whatever data lay under the cyclonic mask, and the cell is masked
    in the combined grid exactly when it is masked in the anticyclonic
    one. *)
Theorem compositor_ignores_data_under_the_mask (s : state) (la lc : loc) (A C : ma.marray) :
  count_of s "g_a" = Some (la, A) →
  count_of s "g_c" = Some (lc, C) →
  la ≠ lc →
  ma.ma_shape C = ma.ma_shape A →
  ∃ s' X,
    compositor s = Ok tt s' ∧
    count_of s' "g_c" = Some (lc, X) ∧
    ∀ k vc va (ma : bool),
      ma.ma_data C !! k = Some vc → ma.ma_mask C !! k = Some true →
      ma.ma_data A !! k = Some va → ma.ma_mask A !! k = Some ma →
      ma.ma_data X !! k = Some (0 + (if ma then 0 else va)) ∧
      ma.ma_mask X !! k = Some ma.
Proof.
  intros Hga Hgc Hne Hsh.
  destruct (compositor_run s la lc A C Hga Hgc Hne Hsh) as (s' & Hrun & Hc & _).
  exists s', (combined C A). split_and!; try done.
  intros k vc va ma Hvc Hmc Hva Hma. split.
  - by rewrite (combined_data C A k vc va true ma).
  - by rewrite (combined_mask C A k true ma).
Qed.

Lemma compositor_ignores_data_under_the_mask_witness :
  ∃ s' X,
    compositor (sample.two_grids sample.count_a sample.count_c) = Ok tt s' ∧
    count_of s' "g_c" = Some (2%nat, X) ∧
    ∀ k vc va (ma : bool),
      ma.ma_data sample.count_c !! k = Some vc → ma.ma_mask sample.count_c !! k = Some true →
      ma.ma_data sample.count_a !! k = Some va → ma.ma_mask sample.count_a !! k = Some ma →
      ma.ma_data X !! k = Some (0 + (if ma then 0 else va)) ∧
      ma.ma_mask X !! k = Some ma.
Proof.
  apply (compositor_ignores_data_under_the_mask
           (sample.two_grids sample.count_a sample.count_c)
           0%nat 2%nat sample.count_a sample.count_c);
    [reflexivity | reflexivity | lia | reflexivity].
Defined.

(** X3.  The compositor keeps the arrays well formed: when the buffers of
    both count arrays match their shape, so do the buffers of the combined
    array and of the ratio, and both have the shape of the inputs. *)
Theorem compositor_keeps_arrays_well_formed (s : state) (la lc : loc) (A C : ma.marray) :
  count_of s "g_a" = Some (la, A) →
  count_of s "g_c" = Some (lc, C) →
  la ≠ lc →
  ma.ma_shape C = ma.ma_shape A →
  ma.wf A → ma.wf C →
  ∃ s' X lr R,
    compositor s = Ok tt s' ∧
    count_of s' "g_c" = Some (lc, X) ∧
    masked_of s' "ratio" = Some (lr, R) ∧
    ma.wf X ∧ ma.wf R ∧
    ma.ma_shape X = ma.ma_shape A ∧ ma.ma_shape R = ma.ma_shape A.
Proof.
  intros Hga Hgc Hne Hsh [HdA HmA] [HdC HmC].
  destruct (compositor_run s la lc A C Hga Hgc Hne Hsh) as (s' & Hrun & Hc & _ & Hr & _).
  exists s', (combined C A), (length (heap s)), (quotient C A).
  rewrite Hsh in HdC, HmC.
  split_and!; try done.
  - unfold ma.wf, combined. cbn [ma.ma_data ma.ma_mask ma.ma_shape].
    rewrite !length_zip_with, Hsh. lia.
  - unfold ma.wf, quotient, ma.zip_with4. cbn [ma.ma_data ma.ma_mask ma.ma_shape].
    rewrite !length_zip_with, Hsh. lia.
Qed.

Lemma compositor_keeps_arrays_well_formed_witness :
  ∃ s' X lr R,
    compositor (sample.two_grids sample.count_a sample.count_c) = Ok tt s' ∧
    count_of s' "g_c" = Some (2%nat, X) ∧
    masked_of s' "ratio" = Some (lr, R) ∧
    ma.wf X ∧ ma.wf R ∧
    ma.ma_shape X = ma.ma_shape sample.count_a ∧
    ma.ma_shape R = ma.ma_shape sample.count_a.
Proof.
  apply (compositor_keeps_arrays_well_formed
           (sample.two_grids sample.count_a sample.count_c)
           0%nat 2%nat sample.count_a sample.count_c);
    [reflexivity | reflexivity | lia | reflexivity
    | split; reflexivity | split; reflexivity].
Defined.

(** X4.  The compositor touches nothing but the cyclonic count array: it
    allocates two objects (the ratio and the combined mask), every other
    object of the store is as before, the anticyclonic dataset included,
    only the names [ratio], [m_c] and [m] are bound anew, and no file is
    read. *)
Theorem compositor_touches_only_the_cyclonic_array
    (s : state) (la lc : loc) (A C : ma.marray) :
  count_of s "g_a" = Some (la, A) →
  count_of s "g_c" = Some (lc, C) →
  la ≠ lc →
  ma.ma_shape C = ma.ma_shape A →
  ∃ s',
    compositor s = Ok tt s' ∧
    length (heap s') = S (S (length (heap s))) ∧
    (∀ l, (l < length (heap s))%nat → l ≠ lc → heap s' !! l = heap s !! l) ∧
    (∀ x, x ≠ "ratio"%string → x ≠ "m_c"%string → x ≠ "m"%string →
          globals s' !! x = globals s !! x) ∧
    files s' = files s ∧ loads s' = loads s.
Proof.
  intros Hga Hgc Hne Hsh.
  destruct (compositor_effect s la lc A C Hga Hgc Hne Hsh)
    as (s' & Hrun & _ & _ & _ & Hlen & Hframe & Hg & Hf & Hl).
  exists s'. split_and!; try done.
  intros x H1 H2 H3. by rewrite Hg, !lookup_insert_ne.
Qed.

Lemma compositor_touches_only_the_cyclonic_array_witness :
  ∃ s',
    compositor (sample.two_grids sample.count_a sample.count_c) = Ok tt s' ∧
    length (heap s') = S (S (length (heap (sample.two_grids sample.count_a sample.count_c)))) ∧
    (∀ l, (l < length (heap (sample.two_grids sample.count_a sample.count_c)))%nat →
          l ≠ 2%nat →
          heap s' !! l = heap (sample.two_grids sample.count_a sample.count_c) !! l) ∧
    (∀ x, x ≠ "ratio"%string → x ≠ "m_c"%string → x ≠ "m"%string →
          globals s' !! x = globals (sample.two_grids sample.count_a sample.count_c) !! x) ∧
    files s' = files (sample.two_grids sample.count_a sample.count_c) ∧
    loads s' = loads (sample.two_grids sample.count_a sample.count_c).
Proof.
  apply (compositor_touches_only_the_cyclonic_array
           (sample.two_grids sample.count_a sample.count_c)
           0%nat 2%nat sample.count_a sample.count_c);
    [reflexivity | reflexivity | lia | reflexivity].
Defined.

(** X5.  [m_c] is a view, not a snapshot: before the compositor it reads the
    cyclonic mask, after it the same name reads the combined mask, because
    the updates of the cyclonic array write the buffer the view looks at. *)
Theorem mask_view_reads_the_combined_mask (s : state) (la lc : loc) (A C : ma.marray) :
  count_of s "g_a" = Some (la, A) →
  count_of s "g_c" = Some (lc, C) →
  la ≠ lc →
  ma.ma_shape C = ma.ma_shape A →
  ∃ s',
    compositor s = Ok tt s' ∧
    globals s' !! "m_c" = Some (VMaskView lc) ∧
    read_bool (VMaskView lc) s = Ok (ma.ma_shape C, ma.ma_mask C) s ∧
    read_bool (VMaskView lc) s'
    = Ok (ma.ma_shape C, zip_with andb (ma.ma_mask C) (ma.ma_mask A)) s'.
Proof.
  intros Hga Hgc Hne Hsh.
  destruct (compositor_effect s la lc A C Hga Hgc Hne Hsh)
    as (s' & Hrun & Hlc & _ & _ & _ & _ & Hg & _).
  destruct (count_of_inv _ _ _ _ Hgc) as (lgc & dc & _ & _ & _ & Hc).
  exists s'. split_and!; try done.
  - rewrite Hg. by rewrite lookup_insert_ne, lookup_insert_eq.
  - by apply read_bool_view.
  - by rewrite (read_bool_view _ _ _ Hlc).
Qed.

Lemma mask_view_reads_the_combined_mask_witness :
  ∃ s',
    compositor (sample.two_grids sample.count_a sample.count_c) = Ok tt s' ∧
    globals s' !! "m_c" = Some (VMaskView 2) ∧
    read_bool (VMaskView 2) (sample.two_grids sample.count_a sample.count_c)
    = Ok (ma.ma_shape sample.count_c, ma.ma_mask sample.count_c)
         (sample.two_grids sample.count_a sample.count_c) ∧
    read_bool (VMaskView 2) s'
    = Ok (ma.ma_shape sample.count_c,
          zip_with andb (ma.ma_mask sample.count_c) (ma.ma_mask sample.count_a)) s'.
Proof.
  apply (mask_view_reads_the_combined_mask
           (sample.two_grids sample.count_a sample.count_c)
           0%nat 2%nat sample.count_a sample.count_c);
    [reflexivity | reflexivity | lia | reflexivity].
Defined.

(** ** Where the notebook stops *)

Lemma bind_Raise {A B} (m : M A) (k : A → M B) s e :
  m s = Raise e → bind m k s = Raise e.
Proof. unfold bind. by intros ->. Qed.

Lemma true_divide_mismatch (x y : ma.marray) :
  ma.ma_shape x ≠ ma.ma_shape y → ma.true_divide x y = inl ma.BroadcastError.
Proof. intros H. unfold ma.true_divide. by rewrite decide_False. Qed.

Lemma not_broadcastable_ne (s1 s2 : ma.shape) : ¬ broadcastable s1 s2 → s1 ≠ s2.
Proof. intros H ->. apply H. split; by left. Qed.

Lemma get_ref_unbound s x : globals s !! x = None → get_ref x s = Raise (NameError x).
Proof. intros H. unfold get_ref, bind, get_var, of_option. by rewrite H. Qed.

(** X6.  Count arrays whose shapes cannot be broadcast together stop the
    notebook at the ratio statement, with numpy's broadcasting error: the
    statement raises and so does the compositor as a whole. *)
Theorem mismatched_shapes_stop_at_the_ratio (s : state) (la lc : loc) (A C : ma.marray) :
  count_of s "g_a" = Some (la, A) →
  count_of s "g_c" = Some (lc, C) →
  ¬ broadcastable (ma.ma_shape C) (ma.ma_shape A) →
  compute_ratio s = Raise (NumpyError ma.BroadcastError) ∧
  compositor s = Raise (NumpyError ma.BroadcastError).
Proof.
  intros Hga Hgc Hsh%not_broadcastable_ne.
  destruct (count_of_inv _ _ _ _ Hga) as (lga & da & Ha & Hlga & Hva & Hla).
  destruct (count_of_inv _ _ _ _ Hgc) as (lgc & dc & Hc & Hlgc & Hvc & Hlc).
  assert (compute_ratio s = Raise (NumpyError ma.BroadcastError)) as Hr.
  { unfold compute_ratio.
    rewrite (bind_Ok _ _ _ _ _ (vars_getitem_Ok _ _ _ _ _ _ Hc Hlgc Hvc)).
    rewrite (bind_Ok _ _ _ _ _ (vars_getitem_Ok _ _ _ _ _ _ Ha Hlga Hva)).
    apply bind_Raise. unfold ma_truediv.
    rewrite (bind_Ok _ _ _ _ _ (load_masked_Ok _ _ _ Hlc)).
    rewrite (bind_Ok _ _ _ _ _ (load_masked_Ok _ _ _ Hla)).
    apply bind_Raise. by rewrite true_divide_mismatch. }
  split; [done|]. unfold compositor. by apply bind_Raise.
Qed.

Lemma mismatched_shapes_stop_at_the_ratio_witness :
  compute_ratio (sample.two_grids wide_a sample.count_c)
  = Raise (NumpyError ma.BroadcastError) ∧
  compositor (sample.two_grids wide_a sample.count_c)
  = Raise (NumpyError ma.BroadcastError).
Proof.
  apply (mismatched_shapes_stop_at_the_ratio
           (sample.two_grids wide_a sample.count_c) 0%nat 2%nat wide_a sample.count_c);
    [reflexivity | reflexivity | unfold broadcastable; simpl; lia].
Defined.

(** One panel more on a figure that is the last figure of the store, the
    panels made so far after it. *)
Lemma new_panel_run (g : gmap string value) (h panels : list obj) (sz : Q * Q)
    (axs : list loc) (fs : gmap string observations) (lo : list string)
    (x : string) (rect : Q * Q * Q * Q) (title : string) :
  g !! "fig" = Some (VRef (length h)) →
  new_panel x rect title
    {| globals := g; heap := h ++ OFigure sz axs :: panels; files := fs; loads := lo |}
  = Ok tt {| globals := <[x := VRef (length h + S (length panels))]> g;
             heap := h ++ OFigure sz (axs ++ [(length h + S (length panels))%nat])
                       :: (panels ++ [trace.panel rect title []]);
             files := fs; loads := lo |}.
Proof.
  intros Hfig.
  assert (∀ y : obj, (h ++ OFigure sz axs :: panels) ++ [y]
                     = h ++ OFigure sz axs :: (panels ++ [y])) as Happ
    by (intros y; by rewrite <- app_assoc).
  assert (length (h ++ OFigure sz axs :: panels) = (length h + S (length panels))%nat)
    as Hlen by (by rewrite length_app).
  unfold new_panel.
  erewrite bind_Ok; [|apply get_ref_Ok; exact Hfig].
  erewrite bind_Ok; [|by eapply add_axes_Ok; apply list_lookup_middle].
  cbv [set_heap]. cbn [heap globals files loads]. rewrite Hlen, Happ.
  rewrite insert_app_r_alt, Nat.sub_diag by lia. cbn [insert list_insert].
  erewrite bind_Ok; [|reflexivity].
  cbv [set_globals]. cbn [heap globals files loads].
  erewrite bind_Ok; [|by eapply get_ref_Ok; apply lookup_insert_eq].
  unfold set_title. erewrite update_axes_Ok; cycle 1.
  { cbn [heap]. rewrite lookup_app_r by lia.
    replace (length h + S (length panels) - length h)%nat with (S (length panels)) by lia.
    cbn. by apply list_lookup_middle. }
  cbv [set_heap]. cbn [heap globals files loads].
  rewrite insert_app_r.
  change (<[S (length panels) := ?y]> (?f :: ?l)) with (f :: <[length panels := y]> l).
  by rewrite insert_app_r_alt, Nat.sub_diag by lia.
Qed.

(** The figure and its four panels are made in any state: five objects
    are appended to the store and their names bound. *)
Lemma make_figure_run (s : state) :
  make_figure s = Ok tt (with_figure s).
Proof.
  destruct s as [g h fs lo]. unfold make_figure, figure.
  rewrite bind_assoc. erewrite bind_Ok; [|reflexivity].
  erewrite bind_Ok; [|reflexivity].
  cbv [set_heap set_globals]. cbn [heap globals files loads].
  do 3 (erewrite bind_Ok;
          [|by apply new_panel_run; rewrite ?lookup_insert_ne by done; apply lookup_insert_eq];
        cbn [app length]).
  rewrite new_panel_run
    by (by rewrite ?lookup_insert_ne by done; apply lookup_insert_eq).
  reflexivity.
Qed.

(** X7.  Cell 6 needs the observation sets of cell 4.  Run in a state where
    [a] is not bound, its first statements succeed: a figure and its four
    titled panels are appended to the store and [fig], [ax_a], [ax_c],
    [ax_all] and [ax_ratio] bound to them.  The first count then stops with
    [NameError] for [a], and so does the cell. *)
Theorem cell6_needs_the_atlases (s : state) :
  globals s !! "a" = None →
  ∃ s1 n,
    make_figure s = Ok tt s1 ∧
    n = length (heap s) ∧
    heap s1 = heap s ++
      [OFigure (12, 18.5) [n + 1; n + 2; n + 3; n + 4]%nat;
       OAxes {| ax_rect := (0.03, 0.75, 0.90, 0.25);
                ax_title := Some "Anticyclonic center frequency"%string;
                ax_aspect := None; ax_xlim := None; ax_ylim := None;
                ax_grid := false; ax_meshes := [] |};
       OAxes {| ax_rect := (0.03, 0.5, 0.90, 0.25);
                ax_title := Some "Cyclonic center frequency"%string;
                ax_aspect := None; ax_xlim := None; ax_ylim := None;
                ax_grid := false; ax_meshes := [] |};
       OAxes {| ax_rect := (0.03, 0.25, 0.90, 0.25);
                ax_title := Some "All eddies center frequency"%string;
                ax_aspect := None; ax_xlim := None; ax_ylim := None;
                ax_grid := false; ax_meshes := [] |};
       OAxes {| ax_rect := (0.03, 0.0, 0.90, 0.25);
                ax_title := Some "Ratio cyclonic / Anticyclonic"%string;
                ax_aspect := None; ax_xlim := None; ax_ylim := None;
                ax_grid := false; ax_meshes := [] |}] ∧
    globals s1 !! "fig" = Some (VRef n) ∧
    globals s1 !! "ax_a" = Some (VRef (n + 1)) ∧
    globals s1 !! "ax_c" = Some (VRef (n + 2)) ∧
    globals s1 !! "ax_all" = Some (VRef (n + 3)) ∧
    globals s1 !! "ax_ratio" = Some (VRef (n + 4)) ∧
    count_centers "g_a" "a" s1 = Raise (NameError "a") ∧
    cell6 s = Raise (NameError "a").
Proof.
  intros Hn. exists (with_figure s), (length (heap s)).
  assert (count_centers "g_a" "a" (with_figure s) = Raise (NameError "a")) as Hc.
  { unfold count_centers. apply bind_Raise, get_ref_unbound.
    unfold with_figure. cbn [globals]. by rewrite !lookup_insert_ne. }
  split_and!; try done;
    try (unfold with_figure; cbn [globals];
         by rewrite ?lookup_insert_ne by done; apply lookup_insert_eq).
  - apply make_figure_run.
  - unfold cell6. rewrite (bind_Ok _ _ _ _ _ (make_figure_run s)).
    apply bind_Raise. unfold count_and_display. by apply bind_Raise.
Qed.

Lemma cell6_needs_the_atlases_witness :
  ∃ s1 n,
    make_figure (initial ∅) = Ok tt s1 ∧
    n = length (heap (initial ∅)) ∧
    heap s1 = heap (initial ∅) ++
      [OFigure (12, 18.5) [n + 1; n + 2; n + 3; n + 4]%nat;
       OAxes {| ax_rect := (0.03, 0.75, 0.90, 0.25);
                ax_title := Some "Anticyclonic center frequency"%string;
                ax_aspect := None; ax_xlim := None; ax_ylim := None;
                ax_grid := false; ax_meshes := [] |};
       OAxes {| ax_rect := (0.03, 0.5, 0.90, 0.25);
                ax_title := Some "Cyclonic center frequency"%string;
                ax_aspect := None; ax_xlim := None; ax_ylim := None;
                ax_grid := false; ax_meshes := [] |};
       OAxes {| ax_rect := (0.03, 0.25, 0.90, 0.25);
                ax_title := Some "All eddies center frequency"%string;
                ax_aspect := None; ax_xlim := None; ax_ylim := None;
                ax_grid := false; ax_meshes := [] |};
       OAxes {| ax_rect := (0.03, 0.0, 0.90, 0.25);
                ax_title := Some "Ratio cyclonic / Anticyclonic"%string;
                ax_aspect := None; ax_xlim := None; ax_ylim := None;
                ax_grid := false; ax_meshes := [] |}] ∧
    globals s1 !! "fig" = Some (VRef n) ∧
    globals s1 !! "ax_a" = Some (VRef (n + 1)) ∧
    globals s1 !! "ax_c" = Some (VRef (n + 2)) ∧
    globals s1 !! "ax_all" = Some (VRef (n + 3)) ∧
    globals s1 !! "ax_ratio" = Some (VRef (n + 4)) ∧
    count_centers "g_a" "a" s1 = Raise (NameError "a") ∧
    cell6 (initial ∅) = Raise (NameError "a").
Proof. apply (cell6_needs_the_atlases (initial ∅)). reflexivity. Defined.

(** ** The final loop on any four panels *)

Lemma format_at_lookup (h : list obj) (l l' : loc) :
  format_at h l !! l' = if decide (l = l') then format_obj <$> h !! l' else h !! l'.
Proof.
  unfold format_at. destruct (decide (l = l')) as [<-|Hne].
  - destruct (h !! l) as [o|] eqn:E; [|by rewrite E].
    destruct o; try by rewrite E.
    rewrite list_lookup_insert_eq; [done | by eapply lookup_lt_Some].
  - destruct (h !! l) as [[]|]; try done. by rewrite list_lookup_insert_ne.
Qed.

Lemma format_at_length (h : list obj) (l : loc) : length (format_at h l) = length h.
Proof. unfold format_at. destruct (h !! l) as [[]|]; by rewrite ?length_insert. Qed.

(** After the loop an object went through the body once for every visit. *)
Lemma foldl_format_at_lookup (ls : list loc) (h : list obj) (l : loc) :
  foldl format_at h ls !! l = Nat.iter (visits ls l) format_obj <$> h !! l.
Proof.
  revert h. induction ls as [|l0 ls IH]; intros h.
  - cbn. by destruct (h !! l).
  - cbn [foldl]. rewrite IH, format_at_lookup. unfold visits. cbn [count_occ].
    destruct (Nat.eq_dec l0 l) as [->|Hne].
    + rewrite decide_True by done. rewrite <- option_fmap_compose.
      apply option_fmap_ext. intros o. unfold compose. by rewrite Nat.iter_succ_r.
    + by rewrite decide_False.
Qed.

Lemma foldl_format_at_length (ls : list loc) (h : list obj) :
  length (foldl format_at h ls) = length h.
Proof.
  revert h. induction ls as [|l ls IH]; intros h; [done|].
  cbn. by rewrite IH, format_at_length.
Qed.

Lemma iter_format_obj (n : nat) (a : axes) :
  Nat.iter n format_obj (OAxes a) = OAxes (formatted_times n a).
Proof.
  induction n as [|n IH]; [done|].
  rewrite Nat.iter_succ, IH. cbn [format_obj]. f_equal.
  destruct n as [|n].
  - unfold formatted_axes, formatted_times. cbn. by destruct (ax_grid a).
  - unfold formatted_axes, formatted_times.
    cbn [ax_rect ax_title ax_aspect ax_xlim ax_ylim ax_grid ax_meshes]. f_equal.
    rewrite (Nat.odd_succ (S n)), <- Nat.negb_odd.
    by destruct (ax_grid a), (Nat.odd (S n)).
Qed.

Lemma visits_pos (ls : list loc) (l : loc) : l ∈ ls → (0 < visits ls l)%nat.
Proof. intros Hin%list_elem_of_In. by apply count_occ_In. Qed.

Lemma visits_zero (ls : list loc) (l : loc) : l ∉ ls → visits ls l = 0%nat.
Proof. intros Hin. apply count_occ_not_In. by rewrite <- list_elem_of_In. Qed.

(** The body of the loop, for the axes that [ax] is bound to. *)
Lemma format_axes_run (s : state) (l : loc) (a : axes) :
  globals s !! "ax" = Some (VRef l) →
  heap s !! l = Some (OAxes a) →
  format_axes s = Ok tt (set_heap (λ h, format_at h l) s).
Proof.
  intros Hx Hl. pose proof (lookup_lt_Some _ _ _ Hl) as Hlt.
  eapply run_to; [autounfold with nb; repeat step|].
  cbv [set_heap format_at]. rewrite Hl. cbn [heap globals files loads].
  by rewrite !list_insert_insert_eq.
Qed.

Lemma for_in_format (ls : list loc) (s : state) :
  Forall (λ l, ∃ a, heap s !! l = Some (OAxes a)) ls →
  for_in "ax" (VRef <$> ls) format_axes s = Ok tt (after_loop s ls).
Proof.
  revert s. induction ls as [|l ls IH]; intros s Hall.
  - by destruct s.
  - apply Forall_cons in Hall as [[a Ha] Hall].
    cbn [fmap list_fmap for_in].
    erewrite bind_Ok; [|reflexivity].
    erewrite bind_Ok; [|by eapply (format_axes_run _ l a); [apply lookup_insert_eq|]].
    rewrite IH.
    + unfold after_loop. cbn [heap globals files loads set_heap set_globals foldl].
      f_equal. f_equal. destruct ls as [|l' ls]; [done|].
      cbn [last]. destruct (last (l' :: ls)) eqn:E; [by rewrite insert_insert_eq|].
      by apply last_None in E.
    + cbn [heap set_heap set_globals]. eapply Forall_impl; [exact Hall|].
      intros l' [a' Ha']. rewrite format_at_lookup.
      destruct (decide (l = l')); rewrite Ha'; cbn; eauto.
Qed.

Lemma format_panels_run (s : state) (l1 l2 l3 l4 : loc) :
  globals s !! "ax_a" = Some (VRef l1) →
  globals s !! "ax_c" = Some (VRef l2) →
  globals s !! "ax_all" = Some (VRef l3) →
  globals s !! "ax_ratio" = Some (VRef l4) →
  Forall (λ l, ∃ a, heap s !! l = Some (OAxes a)) [l1; l2; l3; l4] →
  format_panels s = Ok tt (after_loop s [l1; l2; l3; l4]).
Proof.
  intros H1 H2 H3 H4 Hall. unfold format_panels.
  rewrite (bind_Ok _ _ _ _ _ (get_var_Ok _ _ _ H1)).
  rewrite (bind_Ok _ _ _ _ _ (get_var_Ok _ _ _ H2)).
  rewrite (bind_Ok _ _ _ _ _ (get_var_Ok _ _ _ H3)).
  rewrite (bind_Ok _ _ _ _ _ (get_var_Ok _ _ _ H4)).
  by apply (for_in_format [l1; l2; l3; l4]).
Qed.

(** X8.  The final loop, run on any four axes the names [ax_a], [ax_c],
    [ax_all] and [ax_ratio] are bound to (two names may share one axes):
    every one of them gets equal aspect, x limits (-6, 36.5) and y limits
    (30, 46) and keeps its position, title and meshes; its gridlines are
    toggled once for every name of the four that holds it, so an axes held
    by one name has them switched (on for a new panel, off where they were
    on) and an axes held by two names has them as before.  Every other
    object of the store is left as it was; [ax] stays bound to the last
    axes and no other name changes. *)
Theorem final_loop_formats_the_four_panels (s : state) (l1 l2 l3 l4 : loc) :
  globals s !! "ax_a" = Some (VRef l1) →
  globals s !! "ax_c" = Some (VRef l2) →
  globals s !! "ax_all" = Some (VRef l3) →
  globals s !! "ax_ratio" = Some (VRef l4) →
  Forall (λ l, ∃ a, heap s !! l = Some (OAxes a)) [l1; l2; l3; l4] →
  ∃ s',
    format_panels s = Ok tt s' ∧
    (∀ l a, l ∈ [l1; l2; l3; l4] → heap s !! l = Some (OAxes a) →
       ∃ a', heap s' !! l = Some (OAxes a') ∧
             ax_aspect a' = Some "equal"%string ∧
             ax_xlim a' = Some (-6, 36.5) ∧ ax_ylim a' = Some (30, 46) ∧
             ax_grid a' = xorb (ax_grid a) (Nat.odd (visits [l1; l2; l3; l4] l)) ∧
             ax_rect a' = ax_rect a ∧ ax_title a' = ax_title a ∧
             ax_meshes a' = ax_meshes a) ∧
    (NoDup [l1; l2; l3; l4] →
     ∀ l a, l ∈ [l1; l2; l3; l4] → heap s !! l = Some (OAxes a) →
       ∃ a', heap s' !! l = Some (OAxes a') ∧ ax_grid a' = negb (ax_grid a)) ∧
    (∀ l, l ∉ [l1; l2; l3; l4] → heap s' !! l = heap s !! l) ∧
    length (heap s') = length (heap s) ∧
    globals s' = <["ax" := VRef l4]> (globals s) ∧
    files s' = files s ∧ loads s' = loads s.
Proof.
  intros H1 H2 H3 H4 Hall. exists (after_loop s [l1; l2; l3; l4]).
  split; [by apply format_panels_run|].
  unfold after_loop. cbn [heap globals files loads last].
  split_and!; try done.
  - intros l a Hin Hl. exists (formatted_times (visits [l1; l2; l3; l4] l) a).
    rewrite foldl_format_at_lookup, Hl. cbn [fmap option_fmap option_map].
    rewrite iter_format_obj. apply visits_pos in Hin.
    destruct (visits [l1; l2; l3; l4] l); [lia|]. by split_and!.
  - intros Hnd l a Hin Hl. exists (formatted_axes a).
    rewrite foldl_format_at_lookup, Hl. cbn [fmap option_fmap option_map].
    assert (visits [l1; l2; l3; l4] l = 1%nat) as ->; [|done].
    apply NoDup_ListNoDup in Hnd. apply list_elem_of_In in Hin.
    by apply NoDup_count_occ'.
  - intros l Hin. rewrite foldl_format_at_lookup, visits_zero by done.
    by destruct (heap s !! l).
  - apply foldl_format_at_length.
Qed.

Lemma final_loop_formats_the_four_panels_witness :
  ∃ s',
    format_panels blank_figure = Ok tt s' ∧
    (∀ l a, l ∈ [1; 2; 3; 4]%nat → heap blank_figure !! l = Some (OAxes a) →
       ∃ a', heap s' !! l = Some (OAxes a') ∧
             ax_aspect a' = Some "equal"%string ∧
             ax_xlim a' = Some (-6, 36.5) ∧ ax_ylim a' = Some (30, 46) ∧
             ax_grid a' = xorb (ax_grid a) (Nat.odd (visits [1; 2; 3; 4]%nat l)) ∧
             ax_rect a' = ax_rect a ∧ ax_title a' = ax_title a ∧
             ax_meshes a' = ax_meshes a) ∧
    (NoDup [1; 2; 3; 4]%nat →
     ∀ l a, l ∈ [1; 2; 3; 4]%nat → heap blank_figure !! l = Some (OAxes a) →
       ∃ a', heap s' !! l = Some (OAxes a') ∧ ax_grid a' = negb (ax_grid a)) ∧
    (∀ l, l ∉ [1; 2; 3; 4]%nat → heap s' !! l = heap blank_figure !! l) ∧
    length (heap s') = length (heap blank_figure) ∧
    globals s' = <["ax" := VRef 4]> (globals blank_figure) ∧
    files s' = files blank_figure ∧ loads s' = loads blank_figure.
Proof.
  apply (final_loop_formats_the_four_panels blank_figure 1 2 3 4);
    [reflexivity | reflexivity | reflexivity | reflexivity |].
  repeat constructor; eexists; reflexivity.
Defined.

(** X9.  The final loop is not idempotent.  Run a second time, it succeeds
    and leaves every one of the four axes with the aspect and the limits of
    the first run and with its position, title and meshes, but with the
    gridlines it had before the first run: four distinct new panels, which
    the first run gave gridlines, lose them again.  Every other object is
    as it was before both runs. *)
Theorem final_loop_twice_restores_gridlines (s : state) (l1 l2 l3 l4 : loc) :
  globals s !! "ax_a" = Some (VRef l1) →
  globals s !! "ax_c" = Some (VRef l2) →
  globals s !! "ax_all" = Some (VRef l3) →
  globals s !! "ax_ratio" = Some (VRef l4) →
  Forall (λ l, ∃ a, heap s !! l = Some (OAxes a)) [l1; l2; l3; l4] →
  ∃ s1 s2,
    format_panels s = Ok tt s1 ∧
    format_panels s1 = Ok tt s2 ∧
    (∀ l a, l ∈ [l1; l2; l3; l4] → heap s !! l = Some (OAxes a) →
       ∃ a2, heap s2 !! l = Some (OAxes a2) ∧
             ax_grid a2 = ax_grid a ∧
             ax_aspect a2 = Some "equal"%string ∧
             ax_xlim a2 = Some (-6, 36.5) ∧ ax_ylim a2 = Some (30, 46) ∧
             ax_rect a2 = ax_rect a ∧ ax_title a2 = ax_title a ∧
             ax_meshes a2 = ax_meshes a) ∧
    (NoDup [l1; l2; l3; l4] →
     ∀ l a, l ∈ [l1; l2; l3; l4] → heap s !! l = Some (OAxes a) →
       ∃ a1 a2, heap s1 !! l = Some (OAxes a1) ∧ heap s2 !! l = Some (OAxes a2) ∧
                ax_grid a1 = negb (ax_grid a) ∧ ax_grid a2 = negb (ax_grid a1)) ∧
    (∀ l, l ∉ [l1; l2; l3; l4] → heap s2 !! l = heap s !! l) ∧
    globals s2 = globals s1.
Proof.
  intros H1 H2 H3 H4 Hall.
  exists (after_loop s [l1; l2; l3; l4]),
    (after_loop (after_loop s [l1; l2; l3; l4]) [l1; l2; l3; l4]).
  split; [by apply format_panels_run|].
  split.
  { apply format_panels_run; try (cbn; by rewrite lookup_insert_ne).
    cbn [after_loop heap]. eapply Forall_impl; [exact Hall|].
    intros l [a Ha]. rewrite foldl_format_at_lookup, Ha. cbn [fmap option_fmap option_map].
    rewrite iter_format_obj. eauto. }
  unfold after_loop. cbn [heap globals files loads last].
  split_and!.
  - intros l a Hin Hl.
    exists (formatted_times (visits [l1; l2; l3; l4] l)
              (formatted_times (visits [l1; l2; l3; l4] l) a)).
    rewrite !foldl_format_at_lookup, Hl. cbn [fmap option_fmap option_map].
    rewrite !iter_format_obj. apply visits_pos in Hin.
    destruct (visits [l1; l2; l3; l4] l) as [|n]; [lia|].
    split_and!; try done.
    cbn [formatted_times ax_grid]. by destruct (ax_grid a), (Nat.odd (S n)).
  - intros Hnd l a Hin Hl.
    exists (formatted_axes a), (formatted_axes (formatted_axes a)).
    rewrite !foldl_format_at_lookup, Hl. cbn [fmap option_fmap option_map].
    assert (visits [l1; l2; l3; l4] l = 1%nat) as ->; [|done].
    apply NoDup_ListNoDup in Hnd. apply list_elem_of_In in Hin.
    by apply NoDup_count_occ'.
  - intros l Hin. rewrite !foldl_format_at_lookup, visits_zero by done.
    by destruct (heap s !! l).
  - by rewrite insert_insert_eq.
Qed.

Lemma final_loop_twice_restores_gridlines_witness :
  ∃ s1 s2,
    format_panels blank_figure = Ok tt s1 ∧
    format_panels s1 = Ok tt s2 ∧
    (∀ l a, l ∈ [1; 2; 3; 4]%nat → heap blank_figure !! l = Some (OAxes a) →
       ∃ a2, heap s2 !! l = Some (OAxes a2) ∧
             ax_grid a2 = ax_grid a ∧
             ax_aspect a2 = Some "equal"%string ∧
             ax_xlim a2 = Some (-6, 36.5) ∧ ax_ylim a2 = Some (30, 46) ∧
             ax_rect a2 = ax_rect a ∧ ax_title a2 = ax_title a ∧
             ax_meshes a2 = ax_meshes a) ∧
    (NoDup [1; 2; 3; 4]%nat →
     ∀ l a, l ∈ [1; 2; 3; 4]%nat → heap blank_figure !! l = Some (OAxes a) →
       ∃ a1 a2, heap s1 !! l = Some (OAxes a1) ∧ heap s2 !! l = Some (OAxes a2) ∧
                ax_grid a1 = negb (ax_grid a) ∧ ax_grid a2 = negb (ax_grid a1)) ∧
    (∀ l, l ∉ [1; 2; 3; 4]%nat → heap s2 !! l = heap blank_figure !! l) ∧
    globals s2 = globals s1.
Proof.
  apply (final_loop_twice_restores_gridlines blank_figure 1 2 3 4);
    [reflexivity | reflexivity | reflexivity | reflexivity |].
  repeat constructor; eexists; reflexivity.
Defined.

(** ** The end of the notebook *)

(** X10.  When the notebook ends, the "count" variable of [g_c] is the
    very array that [ratio] names, holding the quotient of the cyclonic by
    the anticyclonic counts: [g_c] holds neither the cyclonic counts nor
    their sum with the anticyclonic ones any more.  The "count" variable of
    [g_a] still holds the anticyclonic counts. *)
Theorem g_c_ends_as_the_ratio (fs : gmap string observations) (oa oc : observations) :
  fs !! anticyclonic_zarr = Some oa →
  fs !! cyclonic_zarr = Some oc →
  ¬ (obs_period oa).2 == (obs_period oa).1 →
  ∃ s' l la A C,
    main (initial fs) = Ok tt s' ∧
    A = count_array (obs_records oa) ((-10, 37, 0.125), (30, 46, 0.125)) ∧
    C = count_array (obs_records oc) ((-10, 37, 0.125), (30, 46, 0.125)) ∧
    count_of s' "g_c" = Some (l, quotient C A) ∧
    masked_of s' "ratio" = Some (l, quotient C A) ∧
    count_of s' "g_a" = Some (la, A) ∧
    la ≠ l.
Proof.
  intros Ha Hc Hp.
  exists (trace.final fs oa oc), 13%nat, 7%nat, (trace.counts oa), (trace.counts oc).
  split; [by apply main_run|].
  split_and!; try reflexivity. lia.
Qed.

Lemma g_c_ends_as_the_ratio_witness :
  ∃ s' l la A C,
    main (initial sample.disk) = Ok tt s' ∧
    A = count_array (obs_records sample.anticyclonic) ((-10, 37, 0.125), (30, 46, 0.125)) ∧
    C = count_array (obs_records sample.cyclonic) ((-10, 37, 0.125), (30, 46, 0.125)) ∧
    count_of s' "g_c" = Some (l, quotient C A) ∧
    masked_of s' "ratio" = Some (l, quotient C A) ∧
    count_of s' "g_a" = Some (la, A) ∧
    la ≠ l.
Proof.
  apply (g_c_ends_as_the_ratio sample.disk sample.anticyclonic sample.cyclonic);
    [reflexivity | reflexivity | intros H; vm_compute in H; discriminate H].
Defined.


